(** * Completion provider of vscode-httpyac: a shallow embedding

    This development embeds [HttpCompletionItemProvider]
    (provider/completionItemProvider.ts) as pure Rocq functions and states
    the properties of the completion engine over them.

    Modelling conventions.
    - A JavaScript string is a [string]; every [ascii] stands for one UTF-16
      code unit in the range 0..255 (Latin-1).  [toLowerCase] and [trim] are
      the restrictions of the ECMAScript operations to that range.
    - Line numbers are [Z]: the provider computes [line - 1] without a guard.
    - [undefined] is [None]; an optional property is an [option].
    - The promise returned by [provideCompletionItems] is modelled by its
      resolved value; the document store's answer is an input.
    - The two tables imported from other packages ([types] of mime-types and
      [knownMetaData] of httpyac) are fields of the class [Externals]. *)

From Stdlib Require Import ZArith List Bool Lia.
From Stdlib Require Import Strings.Ascii Strings.String.
From Stdlib Require DecimalString.
Import ListNotations.

Open Scope string_scope.
Open Scope Z_scope.

(** ** JavaScript string primitives *)

Module JS.

(** [WhiteSpace] and [LineTerminator] code units below 256:
    TAB, LF, VT, FF, CR, SP and NBSP. *)
Definition isWhiteSpace (c : ascii) : bool :=
  let n := N_of_ascii c in
  ((9 <=? n) && (n <=? 13) || (n =? 32) || (n =? 160))%N.

Fixpoint trimStart (s : string) : string :=
  match s with
  | EmptyString => EmptyString
  | String c r => if isWhiteSpace c then trimStart r else s
  end.

Fixpoint trimEnd (s : string) : string :=
  match s with
  | EmptyString => EmptyString
  | String c r =>
      match trimEnd r with
      | EmptyString => if isWhiteSpace c then EmptyString else String c EmptyString
      | r' => String c r'
      end
  end.

(** [String.prototype.trim] *)
Definition trim (s : string) : string := trimEnd (trimStart s).

(** Lower-case mapping of one code unit: A-Z, and the Latin-1 capitals
    U+00C0..U+00DE except the multiplication sign U+00D7. *)
Definition lowerUnit (c : ascii) : ascii :=
  let n := N_of_ascii c in
  if ((65 <=? n) && (n <=? 90)
      || (192 <=? n) && (n <=? 222) && negb (n =? 215))%N
  then ascii_of_N (n + 32) else c.

(** [String.prototype.toLowerCase] *)
Fixpoint toLowerCase (s : string) : string :=
  match s with
  | EmptyString => EmptyString
  | String c r => String (lowerUnit c) (toLowerCase r)
  end.

(** [s.startsWith(p)] *)
Fixpoint startsWith (s p : string) {struct p} : bool :=
  match p, s with
  | EmptyString, _ => true
  | String _ _, EmptyString => false
  | String b p', String a s' => Ascii.eqb a b && startsWith s' p'
  end.

(** [s.indexOf(sub) >= 0] *)
Fixpoint includes (s sub : string) : bool :=
  startsWith s sub ||
  match s with
  | EmptyString => false
  | String _ s' => includes s' sub
  end.

(** [s.slice(n)] for a start index [n >= 0] *)
Fixpoint slice (s : string) (n : nat) : string :=
  match n, s with
  | O, _ => s
  | S _, EmptyString => EmptyString
  | S n', String _ s' => slice s' n'
  end.

(** [s.length === 0] *)
Definition isEmpty (s : string) : bool :=
  match s with EmptyString => true | _ => false end.

(** [Array.prototype.push(...items)] on the array built so far *)
Definition push {A} (result items : list A) : list A := result ++ items.

End JS.

(** ** Data model *)

(** The members of [vscode.CompletionItemKind] the provider uses. *)
Inductive CompletionItemKind := Keyword | Field | Value | Reference.

(** [interface HttpCompletionItem] *)
Record HttpCompletionItem := mkItem {
  name : string;
  description : string;
  text : option string;
  kind : CompletionItemKind
}.

(** The fields of [vscode.CompletionItem] that the provider sets. *)
Record CompletionItem := mkCompletionItem {
  label : string;
  itemKind : CompletionItemKind;
  detail : string;
  documentation : string;
  insertText : string
}.

(** Modelled from the spec: httpyac's [HttpSymbolKind]; the provider
    distinguishes [requestLine] and [requestHeader] from every other tag. *)
Inductive HttpSymbolKind := requestLine | requestHeader | otherSymbol.

(** httpyac's [HttpSymbol]: a line range, a kind and optional children. *)
#[warnings="-register-all"] Inductive HttpSymbol :=
  mkSymbol (startLine endLine : Z) (symbolKind : HttpSymbolKind)
           (children : option (list HttpSymbol)).

Definition startLine (s : HttpSymbol) : Z :=
  match s with mkSymbol a _ _ _ => a end.
Definition endLine (s : HttpSymbol) : Z :=
  match s with mkSymbol _ b _ _ => b end.
Definition symbolKind (s : HttpSymbol) : HttpSymbolKind :=
  match s with mkSymbol _ _ k _ => k end.
Definition children (s : HttpSymbol) : option (list HttpSymbol) :=
  match s with mkSymbol _ _ _ c => c end.

(** Modelled from the spec: the request variant that httpyac's type guards
    [isHttpRequest], [isMQTTRequest], [isEventSourceRequest] and
    [isGrpcRequest] read off a parsed request.  [None] is a request of a
    variant none of the four guards accepts. *)
Inductive RequestVariant := Http | Mqtt | EventSource | Grpc.

Record Request := mkRequest { variant : option RequestVariant }.

Definition isHttpRequest (r : Request) : bool :=
  match variant r with Some Http => true | _ => false end.
Definition isMQTTRequest (r : Request) : bool :=
  match variant r with Some Mqtt => true | _ => false end.
Definition isEventSourceRequest (r : Request) : bool :=
  match variant r with Some EventSource => true | _ => false end.
Definition isGrpcRequest (r : Request) : bool :=
  match variant r with Some Grpc => true | _ => false end.

(** The part of [httpRegion.metaData] the provider reads. *)
Record MetaData := mkMetaData { regionName : option string }.

(** httpyac's [HttpRegion] *)
Record HttpRegion := mkRegion {
  symbol : HttpSymbol;
  request : option Request;
  metaData : MetaData
}.

(** httpyac's [HttpFile] *)
Record HttpFile := mkFile { httpRegions : list HttpRegion }.

(** [vscode.Position] *)
Record Position := mkPosition { line : Z; character : Z }.

(** An entry of [httpyac.parser.knownMetaData]. *)
Record KnownMetaData := mkKnown {
  metaName : string;
  metaDescription : string;
  completions : option (list string)
}.

(** The imported tables: [Object.entries(types)] of the mime-types package,
    in enumeration order (extension, content type), and httpyac's
    [parser.knownMetaData]. *)
Class Externals := {
  types : list (string * string);
  knownMetaData : list KnownMetaData
}.

(** ** Static candidate tables *)

Definition keywordItem (n d : string) : HttpCompletionItem := mkItem n d None Keyword.
Definition fieldItem (n d : string) : HttpCompletionItem := mkItem n d None Field.
Definition valueItem (n d : string) : HttpCompletionItem := mkItem n d None Value.

Definition dquote : string := String (ascii_of_nat 34) EmptyString.

(** The no-break space U+00A0, one code unit. *)
Definition nbsp : string := String (ascii_of_nat 160) EmptyString.

Definition methodTable : list HttpCompletionItem :=
  [ keywordItem "GET"
      "The GET method requests a representation of the specified resource. Requests using GET should only retrieve data.";
    keywordItem "HEAD"
      "The GET method requests a representation of the specified resource. Requests using GET should only retrieve data.";
    keywordItem "POST"
      "The POST method is used to submit an entity to the specified resource, often causing a change in state or side effects on the server.";
    keywordItem "PUT"
      "The PUT method replaces all current representations of the target resource with the request payload.";
    keywordItem "DELETE"
      "The DELETE method deletes the specified resource.";
    keywordItem "CONNECT"
      "The CONNECT method establishes a tunnel to the server identified by the target resource.";
    keywordItem "OPTIONS"
      "The OPTIONS method is used to describe the communication options for the target resource.";
    keywordItem "TRACE"
      "The TRACE method performs a message loop-back test along the path to the target resource.";
    keywordItem "PATCH"
      "The PATCH method is used to apply partial modifications to a resource.";
    keywordItem "MQTT"
      "MQTT request";
    keywordItem "WSS"
      "WSS request";
    keywordItem "SSE"
      "Server Sent Event";
    keywordItem "GRPC"
      "GRPC request" ].

Definition httpHeaderTable : list HttpCompletionItem :=
  [ fieldItem "A-IM"
      "Acceptable instance-manipulations for the request.";
    fieldItem "Accept"
      ("Media type(s)" ++ nbsp ++ "that is/are acceptable for the response. See" ++ nbsp ++ "Content negotiation.");
    fieldItem "Accept-Charset"
      "Character sets that are acceptable.";
    fieldItem "Accept-Datetime"
      "Acceptable version in time.";
    fieldItem "Accept-Encoding"
      ("List of acceptable encodings. See" ++ nbsp ++ "HTTP compression.");
    fieldItem "Accept-Language"
      ("List of acceptable human languages for response. See" ++ nbsp ++ "Content negotiation.");
    fieldItem "Access-Control-Request-Method"
      ("Initiates a request for" ++ nbsp ++ "cross-origin resource sharing" ++ nbsp ++ "with" ++ nbsp ++ "Origin" ++ nbsp ++ "(below).");
    fieldItem "Access-Control-Request-Headers"
      ("Initiates a request for" ++ nbsp ++ "cross-origin resource sharing" ++ nbsp ++ "with" ++ nbsp ++ "Origin" ++ nbsp ++ "(below).");
    fieldItem "Authorization"
      ("Authentication credentials for" ++ nbsp ++ "HTTP authentication.");
    fieldItem "Cache-Control"
      ("Used to specify directives that" ++ nbsp ++ "must" ++ nbsp ++ "be obeyed by all caching mechanisms along the request-response chain.");
    fieldItem "Connection"
      "Control options for the current connection and list of hop-by-hop request fields. Must not be used with HTTP/2.";
    fieldItem "Content-Encoding"
      ("The type of encoding used on the data. See" ++ nbsp ++ "HTTP compression.");
    fieldItem "Content-Length"
      ("The length of the request body in" ++ nbsp ++ "octets" ++ nbsp ++ "(8-bit bytes).");
    fieldItem "Content-MD5"
      ("A" ++ nbsp ++ "Base64-encoded binary" ++ nbsp ++ "MD5" ++ nbsp ++ "sum of the content of the request body.");
    fieldItem "Content-Type"
      ("The" ++ nbsp ++ "Media type" ++ nbsp ++ "of the body of the request (used with POST and PUT requests).");
    fieldItem "Cookie"
      ("An" ++ nbsp ++ "HTTP cookie" ++ nbsp ++ "previously sent by the server with" ++ nbsp ++ "Set-Cookie" ++ nbsp ++ "(below).");
    fieldItem "Date"
      ("The date and time at which the message was originated (in " ++ dquote ++ "HTTP-date" ++ dquote ++ " format as defined by" ++ nbsp ++ "RFC 7231 Date/Time Formats).");
    fieldItem "Expect"
      "Indicates that particular server behaviors are required by the client.";
    fieldItem "Forwarded"
      "Disclose original information of a client connecting to a web server through an HTTP proxy.";
    fieldItem "From"
      "The email address of the user making the request.";
    fieldItem "Host"
      ("The domain name of the server (for" ++ nbsp ++ "virtual hosting), and the" ++ nbsp ++ "TCP port" ++ nbsp ++ "number on which the server is listening. The" ++ nbsp ++ "port" ++ nbsp ++ "number may be omitted if the port is the standard port for the service requested. Mandatory since HTTP/1.1." ++ nbsp ++ "If the request is generated directly in HTTP/2, it should not be used.");
    fieldItem "HTTP2-Settings"
      ("A request that upgrades from HTTP/1.1 to HTTP/2 MUST include exactly one" ++ nbsp ++ "HTTP2-Setting" ++ nbsp ++ "header field. The" ++ nbsp ++ "HTTP2-Settings" ++ nbsp ++ "header field is a connection-specific header field that includes parameters that govern the HTTP/2 connection, provided in anticipation of the server accepting the request to upgrade.");
    fieldItem "If-Match"
      "Only perform the action if the client supplied entity matches the same entity on the server. This is mainly for methods like PUT to only update a resource if it has not been modified since the user last updated it.";
    fieldItem "If-Modified-Since"
      ("Allows a" ++ nbsp ++ "304 Not Modified" ++ nbsp ++ "to be returned if content is unchanged.");
    fieldItem "If-None-Match"
      ("Allows a" ++ nbsp ++ "304 Not Modified" ++ nbsp ++ "to be returned if content is unchanged, see" ++ nbsp ++ "HTTP ETag.");
    fieldItem "If-Range"
      "If the entity is unchanged, send me the part(s) that I am missing; otherwise, send me the entire new entity.";
    fieldItem "If-Unmodified-Since"
      "Only send the response if the entity has not been modified since a specific time.";
    fieldItem "Max-Forwards"
      "Limit the number of times the message can be forwarded through proxies or gateways.";
    fieldItem "Origin"
      ("Initiates a request for" ++ nbsp ++ "cross-origin resource sharing" ++ nbsp ++ "(asks server for" ++ nbsp ++ "Access-Control-*" ++ nbsp ++ "response fields).");
    fieldItem "Pragma"
      "Implementation-specific fields that may have various effects anywhere along the request-response chain.";
    fieldItem "Proxy-Authorization"
      "Authorization credentials for connecting to a proxy.";
    fieldItem "Range"
      ("Request only part of an entity. Bytes are numbered from 0. See" ++ nbsp ++ "Byte serving.");
    fieldItem "Referer"
      ("This is the address of the previous web page from which a link to the currently requested page was followed. (The word " ++ dquote ++ "referrer" ++ dquote ++ " has been misspelled in the RFC as well as in most implementations to the point that it has become standard usage and is considered correct terminology)");
    fieldItem "TE"
      ("The transfer encodings the user agent is willing to accept: the same values as for the response header field Transfer-Encoding can be used, plus the " ++ dquote ++ "trailers" ++ dquote ++ " value (related to the " ++ dquote ++ "chunked" ++ dquote ++ " transfer method) to notify the server it expects to receive additional fields in the trailer after the last, zero-sized, chunk. Only" ++ nbsp ++ "trailers" ++ nbsp ++ "is supported in HTTP/2.");
    fieldItem "Trailer"
      ("The Trailer general field value indicates that the given set of header fields is present in the trailer of a message encoded with" ++ nbsp ++ "chunked transfer coding.");
    fieldItem "Transfer-Encoding"
      ("The form of encoding used to safely transfer the entity to the user." ++ nbsp ++ "Currently defined methods" ++ nbsp ++ "are:" ++ nbsp ++ "chunked, compress, deflate, gzip, identity. Must not be used with HTTP/2");
    fieldItem "User-Agent"
      ("The" ++ nbsp ++ "user agent string" ++ nbsp ++ "of the user agent.");
    fieldItem "Upgrade"
      "Ask the server to upgrade to another protocol. Must not be used in HTTP/2.";
    fieldItem "Via"
      "Informs the server of proxies through which the request was sent.";
    fieldItem "Warning"
      "A general warning about possible problems with the entity body.";
    fieldItem "Upgrade-Insecure-Requests"
      ("Tells a server which (presumably in the middle of a HTTP -> HTTPS migration) hosts mixed content that the client would prefer redirection to HTTPS and can handle" ++ nbsp ++ "Content-Security-Policy: upgrade-insecure-requests Must not be used with HTTP/2");
    fieldItem "X-Requested-With"
      ("Mainly used to identify" ++ nbsp ++ "Ajax" ++ nbsp ++ "requests (most" ++ nbsp ++ "JavaScript frameworks" ++ nbsp ++ "send this field with value of" ++ nbsp ++ "XMLHttpRequest); also identifies Android apps using WebView");
    fieldItem "DNT"
      ("Requests a web application to disable their tracking of a user. This is Mozilla`s version of the X-Do-Not-Track header field (since" ++ nbsp ++ "Firefox 4.0" ++ nbsp ++ "Beta 11)." ++ nbsp ++ "Safari" ++ nbsp ++ "and" ++ nbsp ++ "IE9" ++ nbsp ++ "also have support for this field." ++ nbsp ++ "On March 7, 2011, a draft proposal was submitted to IETF." ++ nbsp ++ "The" ++ nbsp ++ "W3C" ++ nbsp ++ "Tracking Protection Working Group is producing a specification.");
    fieldItem "X-Forwarded-For"
      ("A" ++ nbsp ++ "de facto" ++ nbsp ++ "standard" ++ nbsp ++ "for identifying the originating IP address of a client connecting to a web server through an HTTP proxy or load balancer. Superseded by" ++ nbsp ++ "Forwarded" ++ nbsp ++ "header.");
    fieldItem "X-Forwarded-Host"
      ("A" ++ nbsp ++ "de facto" ++ nbsp ++ "standard" ++ nbsp ++ "for identifying the original host requested by the client in the" ++ nbsp ++ "Host" ++ nbsp ++ "HTTP request header, since the host name and/or port of the reverse proxy (load balancer) may differ from the origin server handling the request. Superseded by" ++ nbsp ++ "Forwarded" ++ nbsp ++ "header.");
    fieldItem "X-Forwarded-Proto"
      ("A" ++ nbsp ++ "de facto" ++ nbsp ++ "standard" ++ nbsp ++ "for identifying the originating protocol of an HTTP request, since a reverse proxy (or a load balancer) may communicate with a web server using HTTP even if the request to the reverse proxy is HTTPS. An alternative form of the header (X-ProxyUser-Ip) is used by Google clients talking to Google servers. Superseded by" ++ nbsp ++ "Forwarded" ++ nbsp ++ "header.");
    fieldItem "Front-End-Https"
      "Non-standard header field used by Microsoft applications and load-balancers";
    fieldItem "X-Http-Method-Override"
      "Requests a web application to override the method specified in the request (typically POST) with the method given in the header field (typically PUT or DELETE). This can be used when a user agent or firewall prevents PUT or DELETE methods from being sent directly (note that this is either a bug in the software component, which ought to be fixed, or an intentional configuration, in which case bypassing it may be the wrong thing to do).";
    fieldItem "X-ATT-DeviceId"
      "Allows easier parsing of the MakeModel/Firmware that is usually found in the User-Agent String of AT&T Devices";
    fieldItem "X-Wap-Profile"
      "Links to an XML file on the Internet with a full description and details about the device currently connecting. In the example to the right is an XML file for an AT&T Samsung Galaxy S2.";
    fieldItem "Proxy-Connection"
      "Implemented as a misunderstanding of the HTTP specifications. Common because of mistakes in implementations of early HTTP versions. Has exactly the same functionality as standard Connection field. Must not be used with HTTP/2.";
    fieldItem "X-UIDH"
      ("Server-side" ++ nbsp ++ "deep packet insertion" ++ nbsp ++ "of a unique ID identifying customers of" ++ nbsp ++ "Verizon Wireless; also known as " ++ dquote ++ "perma-cookie" ++ dquote ++ " or " ++ dquote ++ "supercookie" ++ dquote);
    fieldItem "X-Csrf-Token"
      ("Used to prevent" ++ nbsp ++ "cross-site request forgery. Alternative header names are:" ++ nbsp ++ "X-CSRFToken" ++ nbsp ++ "and" ++ nbsp ++ "X-XSRF-TOKEN");
    fieldItem "X-Request-ID"
      "Correlates HTTP requests between a client and server.";
    fieldItem "X-Correlation-ID"
      "Correlates HTTP requests between a client and server.";
    fieldItem "Save-Data"
      "The Save-Data client hint request header available in Chrome, Opera, and Yandex browsers lets developers deliver lighter, faster applications to users who opt-in to data saving mode in their browser." ].

Definition mqttHeaderTable : list HttpCompletionItem :=
  [ fieldItem "username"
      "the username required by your broker";
    fieldItem "password"
      "the password required by your broker";
    fieldItem "clean"
      "true, set to false to receive QoS 1 and 2 messages while offline";
    fieldItem "keepalive"
      "10 seconds, set to 0 to disable";
    fieldItem "QoS"
      "the QoS used for subscribe or publish";
    fieldItem "retain"
      "the retain flat used for publish";
    fieldItem "subscribe"
      "topics to subscribe to";
    fieldItem "publish"
      "topics to publish to";
    fieldItem "topic"
      "topic to subscribe and publish to" ].

Definition eventSourceHeaderTable : list HttpCompletionItem :=
  [ fieldItem "Event"
      "Server Sent Events to add listener" ].

Definition grpcHeaderTable : list HttpCompletionItem :=
  [ fieldItem "ChannelCredentials"
      "Channel credentials, which are attached to a Channel, such as SSL credentials." ].

Definition authorizationTable : list HttpCompletionItem :=
  [ valueItem "Basic"
      "Basic Authentication";
    valueItem "Digest"
      "Digest Authentication";
    valueItem "AWS"
      "AWS Signnature v4";
    valueItem "OAuth2"
      "OAuth2";
    valueItem "OpenId"
      "OpenId";
    valueItem "Bearer"
      "Bearer Authentication" ].

(** ** The provider *)

Section Provider.

Context {ext : Externals}.

(** [getRequstMethodCompletionItems]: the method table, kept where the
    lower-cased name starts with the line text as typed. *)
Definition getRequstMethodCompletionItems (textLine : string)
  : list HttpCompletionItem :=
  let result := methodTable in
  filter (fun obj =>
            JS.isEmpty textLine
            || JS.startsWith (JS.toLowerCase (name obj)) textLine)
         result.

(** [getRequestHeaders]: the table is chosen by the first type guard that
    accepts the region's request; the array [result] is always truthy, so
    the inner [if (result)] always filters. *)
Definition getRequestHeaders (textLine : string) (isInRequestLine : bool)
           (httpRegion : option HttpRegion) : list HttpCompletionItem :=
  match (if isInRequestLine
         then match httpRegion with
              | Some region => request region
              | None => None
              end
         else None) with
  | Some req =>
      let result : list HttpCompletionItem := [] in
      let result :=
        if isHttpRequest req then JS.push result httpHeaderTable
        else if isMQTTRequest req then JS.push result mqttHeaderTable
        else if isEventSourceRequest req then JS.push result eventSourceHeaderTable
        else if isGrpcRequest req then JS.push result grpcHeaderTable
        else result in
      filter (fun obj =>
                JS.isEmpty textLine
                || JS.startsWith (JS.toLowerCase (name obj))
                                 (JS.toLowerCase (JS.trim textLine)))
             result
  | None => []
  end.

(** [isInRequestLine]: [find] yields the first child that starts on the
    line before the cursor; only that child's kind is inspected. *)
Definition isInRequestLine (httpRegion : HttpRegion) (line : Z) : bool :=
  match children (symbol httpRegion) with
  | Some cs =>
      match find (fun obj => startLine obj =? line - 1) cs with
      | Some preLine =>
          match symbolKind preLine with
          | requestLine | requestHeader => true
          | otherSymbol => false
          end
      | None => false
      end
  | None => false
  end.

(** [getMimetypes] *)
Definition getMimetypes (line : string) (isInRequestLine : bool)
  : list HttpCompletionItem :=
  if isInRequestLine && JS.includes (JS.toLowerCase line) "content-type" then
    let result :=
      map (fun '(key, value) => mkItem value key None Value) types in
    JS.push result
      [ mkItem "application/x-www-form-urlencoded"
               "application/x-www-form-urlencoded" None Value ]
  else [].

(** [getAuthorization] *)
Definition getAuthorization (line : string) (isInRequestLine : bool)
  : list HttpCompletionItem :=
  if isInRequestLine && JS.includes (JS.toLowerCase line) "authorization"
  then authorizationTable
  else [].

(** One iteration of the loop of [getMetaData] over [knownMetaData]:
    the candidates pushed for the directive [obj]. *)
Definition metaDataItems (line : string) (obj : KnownMetaData)
  : list HttpCompletionItem :=
  let item := mkItem ("@" ++ metaName obj) (metaDescription obj)
                     (Some ("@" ++ metaName obj)) Field in
  if JS.isEmpty line || JS.startsWith (name item) line then
    match completions obj with
    | Some cs =>
        map (fun completion =>
               mkItem ("@" ++ metaName obj ++ " " ++ completion)
                      (description item)
                      (Some (JS.slice ("@" ++ metaName obj ++ " " ++ completion)
                                      (String.length line)))
                      (kind item))
            cs
    | None =>
        [ mkItem (name item) (description item)
                 (Some (JS.slice (name item) (String.length line)))
                 (kind item) ]
    end
  else [].

(** [getMetaData] *)
Definition getMetaData (textLine : string) (isInRequestLine : bool)
  : list HttpCompletionItem :=
  if JS.startsWith (JS.trim textLine) "#" && negb isInRequestLine then
    let line := JS.trim (JS.slice (JS.trim textLine) 1) in
    fold_left (fun result obj => JS.push result (metaDataItems line obj))
              knownMetaData []
  else [].

(** [!!obj.metaData.name]: defined and not the empty string *)
Definition hasName (obj : HttpRegion) : bool :=
  match regionName (metaData obj) with
  | Some n => negb (JS.isEmpty n)
  | None => false
  end.

(** [toHttpCompletionItem] of [getRefName]; [name || ''] *)
Definition toHttpCompletionItem (httpRegion : HttpRegion) : HttpCompletionItem :=
  mkItem (match regionName (metaData httpRegion) with
          | Some n => n
          | None => EmptyString
          end)
         "httpRegion name" None Reference.

(** [getRefName] *)
Definition getRefName (line : string) (httpFile : option HttpFile)
  : list HttpCompletionItem :=
  match httpFile with
  | Some file =>
      if JS.startsWith line "#" && JS.includes (JS.toLowerCase line) "ref" then
        JS.push [] (map toHttpCompletionItem (filter hasName (httpRegions file)))
      else []
  | None => []
  end.

(** The final [map] of [provideCompletionItems]; [obj.text || obj.name]
    falls back to the name when [text] is absent or empty. *)
Definition toCompletionItem (obj : HttpCompletionItem) : CompletionItem :=
  mkCompletionItem (name obj) (kind obj) (description obj) (description obj)
    (match text obj with
     | Some t => if JS.isEmpty t then name obj else t
     | None => name obj
     end).

(** The region [provideCompletionItems] selects: the first one whose symbol
    range contains the cursor line, if a file is available. *)
Definition findRegion (httpFile : option HttpFile) (position : Position)
  : option HttpRegion :=
  match httpFile with
  | Some file =>
      find (fun obj => (startLine (symbol obj) <=? line position)
                       && (line position <=? endLine (symbol obj)))
           (httpRegions file)
  | None => None
  end.

(** [const isInRequestLine = !!httpRegion && this.isInRequestLine(...)] *)
Definition headerContext (httpFile : option HttpFile) (position : Position)
  : bool :=
  match findRegion httpFile position with
  | Some region => isInRequestLine region (line position)
  | None => false
  end.

(** The candidates in the array [result] before the final [map]. *)
Definition collectCandidates (rangeText : string) (position : Position)
           (httpFile : option HttpFile) : list HttpCompletionItem :=
  let textLine := JS.trim rangeText in
  let httpRegion := findRegion httpFile position in
  let isInRequestLine := headerContext httpFile position in
  let result : list HttpCompletionItem := [] in
  let result := JS.push result (getRequstMethodCompletionItems textLine) in
  let result := JS.push result (getRequestHeaders textLine isInRequestLine httpRegion) in
  let result := JS.push result (getMimetypes textLine isInRequestLine) in
  let result := JS.push result (getAuthorization textLine isInRequestLine) in
  let result := JS.push result (getMetaData textLine isInRequestLine) in
  let result := JS.push result (getRefName textLine httpFile) in
  result.

(** [provideCompletionItems]: [rangeText] is what [document.getText]
    returns for the range from the start of the cursor line to the cursor,
    [httpFile] what the document store resolves to. *)
Definition provideCompletionItems (rangeText : string) (position : Position)
           (httpFile : option HttpFile) : list CompletionItem :=
  map toCompletionItem (collectCandidates rangeText position httpFile).

End Provider.

(** ** Reference behaviour named by the specification *)

(** The generic prefix filter of the specification: the candidates whose
    name, compared case-insensitively, starts with the typed prefix. *)
Definition prefixFilterSpec (S : list HttpCompletionItem) (p : string)
  : list HttpCompletionItem :=
  filter (fun c => JS.startsWith (JS.toLowerCase (name c)) (JS.toLowerCase p)) S.

(** The specification's [headerTable(variant)]. *)
Definition headerTableSpec (v : option RequestVariant) : list HttpCompletionItem :=
  match v with
  | Some Http => httpHeaderTable
  | Some Mqtt => mqttHeaderTable
  | Some EventSource => eventSourceHeaderTable
  | Some Grpc => grpcHeaderTable
  | None => []
  end.

(** The symbolic names of the regions that have a non-empty one, in region
    order. *)
Fixpoint regionNamesSpec (regions : list HttpRegion) : list string :=
  match regions with
  | [] => []
  | r :: rest =>
      match regionName (metaData r) with
      | Some (String c n) => String c n :: regionNamesSpec rest
      | _ => regionNamesSpec rest
      end
  end.

(** A region encloses a line when the line lies in its symbol's range. *)
Definition encloses (r : HttpRegion) (l : Z) : Prop :=
  startLine (symbol r) <= l <= endLine (symbol r).

(** A symbol that opens header context for the cursor line [l]: it starts
    on the preceding line and is a request line or a request header. *)
Definition opensHeader (c : HttpSymbol) (l : Z) : Prop :=
  startLine c = l - 1 /\
  (symbolKind c = requestLine \/ symbolKind c = requestHeader).

(** [region] is the first region of [regions] that encloses line [l]. *)
Definition firstEnclosing (regions : list HttpRegion) (l : Z) (region : HttpRegion)
  : Prop :=
  exists before after,
    regions = (before ++ region :: after)%list
    /\ (forall r, In r before -> ~ encloses r l)
    /\ encloses region l.

(** [pre] is the first symbol of [cs] that starts on line [l]. *)
Definition firstStartingAt (cs : list HttpSymbol) (l : Z) (pre : HttpSymbol)
  : Prop :=
  exists c1 c2,
    cs = (c1 ++ pre :: c2)%list
    /\ (forall c, In c c1 -> startLine c <> l)
    /\ startLine pre = l.

(** No name of [tbl], lower-cased, starts with the hash sign. *)
Definition hashFree (tbl : list HttpCompletionItem) : bool :=
  forallb (fun obj => negb (JS.startsWith (JS.toLowerCase (name obj)) "#")) tbl.

(** The names of the static tables are not empty. *)
Definition namesNotEmpty (tbl : list HttpCompletionItem) : bool :=
  forallb (fun obj => negb (JS.isEmpty (name obj))) tbl.

(** ** Sample inputs *)

(** A small instance of the imported tables. *)
Definition sampleExternals : Externals := {|
  types := [ ("json", "application/json"); ("txt", "text/plain") ];
  knownMetaData :=
    [ mkKnown "name" "name of the region" None;
      mkKnown "ref" "reference to another region" None;
      mkKnown "loop" "repeat the request"
              (Some [ "for item of array"; "for 3" ]) ]
|}.

(** An imported directive table in which [ref] has sub-completions. *)
Definition refExternals : Externals := {|
  types := [];
  knownMetaData := [ mkKnown "ref" "reference" (Some [ "foo"; "bar" ]) ]
|}.

(** Lines 0-3: an HTTP request named foo (request line on 1, header on 2). *)
Definition regionHttp : HttpRegion :=
  mkRegion (mkSymbol 0 3 otherSymbol
              (Some [ mkSymbol 0 0 otherSymbol None;
                      mkSymbol 1 1 requestLine None;
                      mkSymbol 2 2 requestHeader None ]))
           (Some (mkRequest (Some Http)))
           (mkMetaData (Some "foo")).

(** Lines 4-6: an MQTT request, also named foo. *)
Definition regionMqtt : HttpRegion :=
  mkRegion (mkSymbol 4 6 otherSymbol (Some [ mkSymbol 4 4 requestLine None ]))
           (Some (mkRequest (Some Mqtt)))
           (mkMetaData (Some "foo")).

(** Lines 7-9: a region without a name and without a parsed request. *)
Definition regionBare : HttpRegion :=
  mkRegion (mkSymbol 7 9 otherSymbol None) None (mkMetaData None).

Definition sampleFile : HttpFile :=
  mkFile [ regionHttp; regionMqtt; regionBare ].

(** Lines 0-6: two children start on line 4, the first is not a request
    line, the second is. *)
Definition regionShadowed : HttpRegion :=
  mkRegion (mkSymbol 0 6 otherSymbol
              (Some [ mkSymbol 4 4 otherSymbol None;
                      mkSymbol 4 4 requestLine None ]))
           (Some (mkRequest (Some Http)))
           (mkMetaData None).

Definition shadowedFile : HttpFile := mkFile [ regionShadowed ].

(** ** The error handler (provider/errorHandler.ts) *)

Module ErrorHandler.

Section Handler.

(** [V]: thrown values that are neither [Error] objects nor strings;
    [Args] and [A]: arguments and results of the decorated method. *)
Variables V Args A : Type.

(** What a method can throw, as [handleError] tells the cases apart:
    [err instanceof Error], [utils.isString(err)], anything else. *)
Inductive Thrown :=
| ErrorObject (stack : option string) (errName message : string)
| StringValue (s : string)
| OtherValue (v : V).

(** The argument of [window.showErrorMessage]; [JSON.stringify(err, null, 2)]
    is kept symbolic. *)
Inductive Message := Text (s : string) | JsonStringify (v : V).

(** The two observable effects: [log.error(err)] and the popup. *)
Inductive Effect := LogError (err : Thrown) | ShowErrorMessage (m : Message).

(** A promise, by the way it settles. *)
Inductive Settled (R : Type) := Fulfilled (v : R) | Rejected (err : Thrown).

(** How a call ends: it returns a plain value, returns a promise
    ([utils.isPromise(result)]), or throws. *)
Inductive Outcome (R : Type) :=
| Returns (v : R)
| ReturnsPromise (p : Settled R)
| Throws (err : Thrown).

Arguments Fulfilled {R}.
Arguments Rejected {R}.
Arguments Returns {R}.
Arguments ReturnsPromise {R}.
Arguments Throws {R}.

(** [err.stack || `${err.name} - ${err.message}`] *)
Definition errorText (stack : option string) (errName message : string) : string :=
  match stack with
  | Some s => if JS.isEmpty s then errName ++ " - " ++ message else s
  | None => errName ++ " - " ++ message
  end.

(** Whether [JSON.stringify(err, null, 2)] throws on a value, and what: it
    does on a cyclic object or a BigInt. *)
Variable stringifyThrows : V -> option Thrown.

(** [handleError]; [showNotificationPopup] is the setting read from
    [getConfigSetting()].  The result is the effects and the way the
    promise of this async function settles: [None] when it is fulfilled,
    [Some e] when it is rejected with [e], which happens when
    [JSON.stringify] throws before the popup is opened.  [log.error],
    [getConfigSetting] and [window.showErrorMessage] are taken not to
    fail. *)
Definition handleError (showNotificationPopup : bool) (err : Thrown)
  : list Effect * option Thrown :=
  if showNotificationPopup then
    match err with
    | ErrorObject stack errName message =>
        ([ LogError err; ShowErrorMessage (Text (errorText stack errName message)) ],
         None)
    | StringValue s => ([ LogError err; ShowErrorMessage (Text s) ], None)
    | OtherValue v =>
        match stringifyThrows v with
        | Some thrown => ([ LogError err ], Some thrown)
        | None => ([ LogError err; ShowErrorMessage (JsonStringify v) ], None)
        end
    end
  else ([ LogError err ], None).

(** [errorHandlerWrapper]: the function that replaces the decorated method.
    A method is given by the effects it has and the way it ends; [None] is
    the [undefined] returned after an error was handled.  In the [catch]
    block the promise of [handleError] is dropped; on the promise path
    [result.catch] returns it, so the wrapper's promise settles as
    [handleError] does. *)
Definition errorHandlerWrapper (showNotificationPopup : bool)
           (method : Args -> list Effect * Outcome A) (args : Args)
  : list Effect * Outcome (option A) :=
  let (effects, result) := method args in
  match result with
  | Returns v => (effects, Returns (Some v))
  | ReturnsPromise (Fulfilled v) => (effects, ReturnsPromise (Fulfilled (Some v)))
  | ReturnsPromise (Rejected err) =>
      let (handled, settled) := handleError showNotificationPopup err in
      ((effects ++ handled)%list,
       ReturnsPromise (match settled with
                       | None => Fulfilled None
                       | Some thrown => Rejected thrown
                       end))
  | Throws err =>
      let (handled, _) := handleError showNotificationPopup err in
      ((effects ++ handled)%list, Returns None)
  end.

(** The number of popups among some effects. *)
Definition popups (effects : list Effect) : nat :=
  List.length (filter (fun e => match e with ShowErrorMessage _ => true | _ => false end)
                      effects).

(** The errors logged among some effects, in order. *)
Definition logged (effects : list Effect) : list Thrown :=
  flat_map (fun e => match e with LogError err => [ err ] | _ => [] end) effects.

(** The call failed: it threw or its promise was rejected. *)
Definition failedWith {R : Type} (o : Outcome R) : option Thrown :=
  match o with
  | Throws err => Some err
  | ReturnsPromise (Rejected err) => Some err
  | _ => None
  end.

End Handler.

Arguments ErrorObject {V}.
Arguments StringValue {V}.
Arguments OtherValue {V}.
Arguments Text {V}.
Arguments JsonStringify {V}.
Arguments LogError {V}.
Arguments ShowErrorMessage {V}.
Arguments Fulfilled {V R}.
Arguments Rejected {V R}.
Arguments Returns {V R}.
Arguments ReturnsPromise {V R}.
Arguments Throws {V R}.
Arguments errorText stack errName message : assert.
Arguments handleError {V} stringifyThrows.
Arguments errorHandlerWrapper {V Args A} stringifyThrows.
Arguments popups {V}.
Arguments logged {V}.
Arguments failedWith {V R}.

End ErrorHandler.

(** ** The store controller (provider/storeController.ts) *)

Module StoreController.

(** [`${n}`] for an array length. *)
Definition numberToString (n : nat) : string :=
  DecimalString.NilEmpty.string_of_uint (Nat.to_uint n).

(** The two [vscode.ThemeColor] objects of [statusBarBackground]. *)
Inductive ThemeColor := errorBackground | warningBackground.

(** The values of [environmentStatusBarItemDefaultBackground]. *)
Inductive BackgroundType := none | warning | error.

(** [config.codelens] *)
Record CodeLensSetting := mkCodeLensSetting {
  pickEnvironment : bool;
  resetEnvironment : bool;
  logoutUserSession : bool;
  removeCookies : bool
}.

(** The settings [getConfigSetting()] returns, as far as the controller
    reads them; a flag is its truthiness. *)
Record Config := mkConfig {
  useCodeLensInNotebook : bool;
  codelens : option CodeLensSetting;
  environmentShowStatusBarItem : bool;
  environmentStatusBarItemDefaultBackground : option BackgroundType;
  environmentStatusBarItemErrorEnvs : option (list string);
  environmentStatusBarItemWarningEnvs : option (list string);
  environmentPickMany : bool;
  environmentStoreSelectedOnStart : bool
}.

(** [config.codelens?.flag] *)
Definition codelensFlag (flag : CodeLensSetting -> bool) (config : Config) : bool :=
  match codelens config with
  | Some setting => flag setting
  | None => false
  end.

(** An item offered by, and returned from, the environment quick pick. *)
Record QuickPickItem := mkQuickPickItem { label : string; picked : bool }.

(** What [showQuickPick] resolves to: nothing, an array, or one item. *)
Inductive PickResult :=
| NoPick
| PickedMany (items : list QuickPickItem)
| PickedOne (item : QuickPickItem).

Section Controller.

(** [APP_NAME] of the configuration module; the types of document URIs,
    file names, cookies and user sessions. *)
Variable APP_NAME : string.
Variables Uri PathLike Cookie UserSession : Type.

(** The quick pick shown to the user: items and [canPickMany] in, the
    user's answer out. *)
Variable showQuickPick : list QuickPickItem -> bool -> PickResult.

(** The constant [commands]. *)
Record Commands := mkCommands {
  toggleEnvCommand : string;
  resetCommand : string;
  logoutCommand : string;
  removeCookiesCommand : string
}.

Definition commands : Commands := {|
  toggleEnvCommand := APP_NAME ++ ".toggle-env";
  resetCommand := APP_NAME ++ ".reset";
  logoutCommand := APP_NAME ++ ".logout";
  removeCookiesCommand := APP_NAME ++ ".removeCookies"
|}.

(** The fields of httpyac's [HttpFile] the controller uses. *)
Record EnvFile := mkEnvFile {
  fileName : PathLike;
  activeEnvironment : option (list string)
}.

(** A command argument: the document URI or a file name. *)
Inductive Argument := UriArgument (uri : Uri) | FileArgument (file : PathLike).

(** [vscode.CodeLens] with its command. *)
Record CodeLens := mkCodeLens {
  range : Z * Z * Z * Z;
  command : string;
  arguments : option (list Argument);
  title : string
}.

(** [getEnvironmentTitle] *)
Definition getEnvironmentTitle (active : option (list string)) : string :=
  match active with
  | Some (e :: rest) => String.concat ", " (e :: rest)
  | _ => "-"
  end.

(** [provideCodeLenses]; [isNotebook] is [utils.isNotebook(document)],
    [httpFile] what the document store resolves to, [userSessions] the
    sessions of the user session store, [getCookies] the cookie store. *)
Definition provideCodeLenses (config : Config) (isNotebook : bool) (uri : Uri)
           (httpFile : option EnvFile) (userSessions : list UserSession)
           (getCookies : EnvFile -> list Cookie) : list CodeLens :=
  let result : list CodeLens := [] in
  if negb (useCodeLensInNotebook config) && isNotebook then result
  else
    let args := [ UriArgument uri ] in
    let result :=
      if codelensFlag pickEnvironment config then
        match httpFile with
        | Some file =>
            JS.push result
              [ mkCodeLens (0, 0, 0, 0) (toggleEnvCommand commands) (Some args)
                  ("env: " ++ getEnvironmentTitle (activeEnvironment file)) ]
        | None => result
        end
      else result in
    let result :=
      if codelensFlag resetEnvironment config then
        match httpFile with
        | Some _ =>
            JS.push result
              [ mkCodeLens (0, 0, 0, 0) (resetCommand commands) None
                  "reset environment" ]
        | None => result
        end
      else result in
    let result :=
      if (0 <? List.length userSessions)%nat && codelensFlag logoutUserSession config
      then
        JS.push result
          [ mkCodeLens (0, 0, 0, 0) (logoutCommand commands) None
              ("session (" ++ numberToString (List.length userSessions) ++ ")") ]
      else result in
    let result :=
      match httpFile with
      | Some file =>
          if codelensFlag removeCookies config then
            let cookies := getCookies file in
            if (0 <? List.length cookies)%nat then
              JS.push result
                [ mkCodeLens (0, 0, 0, 0) (removeCookiesCommand commands) (Some args)
                    ("cookies (" ++ numberToString (List.length cookies) ++ ")") ]
            else result
          else result
      | None => result
      end in
    result.

(** The command attached to the status bar item. *)
Record StatusCommand := mkStatusCommand {
  statusCommand : string;
  statusArguments : list Argument;
  statusTitle : string
}.

(** The fields of [envStatusBarItem] the controller writes; [visible] is
    the effect of [show()] and [hide()]. *)
Record StatusBarItem := mkStatusBarItem {
  text : string;
  tooltip : option string;
  itemCommand : option StatusCommand;
  backgroundColor : option ThemeColor;
  visible : bool
}.

(** [getDefaultBackgroundColor] *)
Definition getDefaultBackgroundColor (type : option BackgroundType)
  : option ThemeColor :=
  match type with
  | Some error => Some errorBackground
  | Some warning => Some warningBackground
  | _ => None
  end.

(** [envs && envs.some(obj => env.indexOf(obj) >= 0)] *)
Definition someOccursIn (envs : option (list string)) (env : string) : bool :=
  match envs with
  | Some l => existsb (fun obj => JS.includes env obj) l
  | None => false
  end.

(** [type !== 'error'], [type !== 'warning'] *)
Definition isError (type : option BackgroundType) : bool :=
  match type with Some error => true | _ => false end.
Definition isWarning (type : option BackgroundType) : bool :=
  match type with Some warning => true | _ => false end.

(** The body of [refreshEnvStatusBarItem], applied to the status bar item. *)
Definition refreshEnvStatusBarItem (config : Config) (httpFile : EnvFile)
           (item : StatusBarItem) : StatusBarItem :=
  if environmentShowStatusBarItem config then
    let env := getEnvironmentTitle (activeEnvironment httpFile) in
    let default := environmentStatusBarItemDefaultBackground config in
    let background := getDefaultBackgroundColor default in
    let background :=
      if someOccursIn (environmentStatusBarItemErrorEnvs config) env then
        if negb (isError default) then Some errorBackground else None
      else if someOccursIn (environmentStatusBarItemWarningEnvs config) env then
        if negb (isWarning default) then Some warningBackground else None
      else background in
    mkStatusBarItem env (Some "Select httpYac Environment")
      (Some (mkStatusCommand (toggleEnvCommand commands)
               [ FileArgument (fileName httpFile) ]
               "Select httpYac Environment"))
      background true
  else
    mkStatusBarItem (text item) (tooltip item) (itemCommand item)
      (backgroundColor item) false.

(** What the controller holds and changes: the status bar item, the
    document store's active environment, the events fired on
    [environmentChangedEmitter], the values written to the setting
    [environmentSelectedOnStart], the information messages shown. *)
Record State := mkState {
  envStatusBarItem : StatusBarItem;
  documentStoreActiveEnvironment : option (list string);
  fired : list (option (list string));
  selectedOnStart : list (option (list string));
  informationMessages : list string
}.

(** [activeEnvironment.indexOf(env) >= 0] *)
Definition indexOfFound (l : list string) (env : string) : bool :=
  existsb (String.eqb env) l.

(** The items [pickEnv] offers. *)
Definition quickPickItems (envs : list string) (active : option (list string))
  : list QuickPickItem :=
  map (fun env =>
         mkQuickPickItem env
           (match active with
            | Some l => indexOfFound l env
            | None => false
            end))
      envs.

(** The body of [pickEnv]; [envs] is what [httpyac.getEnvironments]
    resolves to. *)
Definition pickEnv (config : Config) (envs : option (list string)) (st : State)
  : State * option (list string) :=
  match envs with
  | Some envs =>
      let pickedObj :=
        showQuickPick (quickPickItems envs (documentStoreActiveEnvironment st))
                      (environmentPickMany config) in
      let activeEnvironment :=
        match pickedObj with
        | PickedMany items => Some (map label items)
        | PickedOne item => Some [ label item ]
        | NoPick => None
        end in
      (mkState (envStatusBarItem st) activeEnvironment
         (fired st ++ [ activeEnvironment ])
         (if environmentStoreSelectedOnStart config
          then selectedOnStart st ++ [ activeEnvironment ]
          else selectedOnStart st)
         (informationMessages st),
       activeEnvironment)
  | None =>
      (mkState (envStatusBarItem st) (documentStoreActiveEnvironment st)
         (fired st) (selectedOnStart st)
         (informationMessages st ++ [ "no environment found" ]),
       None)
  end.

(** The body of [toggleEnv]; [httpFile] is the file of the editor, absent
    when there is no editor or no file for it.  The file's active
    environment is assigned and the status bar refreshed. *)
Definition toggleEnv (config : Config) (httpFile : option EnvFile)
           (envs : option (list string)) (st : State)
  : State * option EnvFile :=
  match httpFile with
  | Some file =>
      let (st1, env) := pickEnv config envs st in
      let file1 := mkEnvFile (fileName file) env in
      (mkState (refreshEnvStatusBarItem config file1 (envStatusBarItem st1))
         (documentStoreActiveEnvironment st1) (fired st1) (selectedOnStart st1)
         (informationMessages st1),
       Some file1)
  | None => (st, None)
  end.

(** The four lenses [provideCodeLenses] can build. *)
Definition envLens (uri : Uri) (file : EnvFile) : CodeLens :=
  mkCodeLens (0, 0, 0, 0) (toggleEnvCommand commands) (Some [ UriArgument uri ])
    ("env: " ++ getEnvironmentTitle (activeEnvironment file)).

Definition resetLens : CodeLens :=
  mkCodeLens (0, 0, 0, 0) (resetCommand commands) None "reset environment".

Definition sessionLens (n : nat) : CodeLens :=
  mkCodeLens (0, 0, 0, 0) (logoutCommand commands) None
    ("session (" ++ numberToString n ++ ")").

Definition cookiesLens (uri : Uri) (n : nat) : CodeLens :=
  mkCodeLens (0, 0, 0, 0) (removeCookiesCommand commands) (Some [ UriArgument uri ])
    ("cookies (" ++ numberToString n ++ ")").

(** Some lens of [lenses] runs the command [c]. *)
Definition hasCommand (lenses : list CodeLens) (c : string) : Prop :=
  exists lens, In lens lenses /\ command lens = c.

End Controller.

Arguments mkEnvFile {PathLike}.
Arguments fileName {PathLike}.
Arguments activeEnvironment {PathLike}.
Arguments UriArgument {Uri PathLike}.
Arguments FileArgument {Uri PathLike}.
Arguments mkCodeLens {Uri PathLike}.
Arguments range {Uri PathLike}.
Arguments command {Uri PathLike}.
Arguments arguments {Uri PathLike}.
Arguments title {Uri PathLike}.
Arguments mkStatusCommand {Uri PathLike}.
Arguments mkStatusBarItem {Uri PathLike}.
Arguments text {Uri PathLike}.
Arguments tooltip {Uri PathLike}.
Arguments itemCommand {Uri PathLike}.
Arguments backgroundColor {Uri PathLike}.
Arguments visible {Uri PathLike}.
Arguments mkState {Uri PathLike}.
Arguments envStatusBarItem {Uri PathLike}.
Arguments documentStoreActiveEnvironment {Uri PathLike}.
Arguments fired {Uri PathLike}.
Arguments selectedOnStart {Uri PathLike}.
Arguments informationMessages {Uri PathLike}.
Arguments provideCodeLenses APP_NAME {Uri PathLike Cookie UserSession}.
Arguments refreshEnvStatusBarItem APP_NAME {Uri PathLike}.
Arguments pickEnv {Uri PathLike}.
Arguments toggleEnv APP_NAME {Uri PathLike}.
Arguments envLens APP_NAME {Uri PathLike}.
Arguments resetLens APP_NAME {Uri PathLike}.
Arguments sessionLens APP_NAME {Uri PathLike}.
Arguments cookiesLens APP_NAME {Uri PathLike}.
Arguments hasCommand {Uri PathLike}.

End StoreController.

(** ** The environment controller (provider/enviromentController.ts) *)

Module EnvironmentController.

Section Providers.

(** The JSON of the setting [environmentenvironments], the value of the
    setting [dotenvDefaultFiles], and [isAbsolute] and [join] of the path
    module. *)
Variables Json Files : Type.
Variable isAbsolute : string -> bool.
Variable join : string -> string -> string.

(** What an environment provider was constructed from. *)
Inductive ProviderData :=
| JsonEnvProvider (environments : Json)
| DotenvProvider (dirname : string) (defaultFiles : Files).

(** A provider object: [ref] is its identity, which [indexOf] compares. *)
Record EnvironmentProvider := mkProvider { ref : nat; data : ProviderData }.

(** The settings handed to [initEnvironmentProvider]. *)
Record Configs := mkConfigs {
  environmentenvironments : option Json;
  dotenvDirname : option string;
  dotenvDefaultFiles : Files
}.

(** [environmentStore.environmentProviders], [this.environmentProviders],
    the reference of the next object created, and the number of calls of
    [environmentStore.refresh()]. *)
Record State := mkState {
  storeProviders : list EnvironmentProvider;
  ownProviders : option (list EnvironmentProvider);
  nextRef : nat;
  refreshes : nat
}.

(** [this.environmentProviders.indexOf(obj) < 0] *)
Definition notOwn (own : list EnvironmentProvider) (obj : EnvironmentProvider) : bool :=
  negb (existsb (fun p => (ref p =? ref obj)%nat) own).

(** The providers [initEnvironmentProvider] constructs, in the order in
    which it pushes them; [folders] is [vscode.workspace.workspaceFolders]
    by [uri.fsPath]. *)
Definition ownData (configs : Configs) (folders : option (list string))
  : list ProviderData :=
  let dotenvDefaultFiles := dotenvDefaultFiles configs in
  ((match environmentenvironments configs with
    | Some environmentenvironments => [ JsonEnvProvider environmentenvironments ]
    | None => []
    end)
   ++ (match dotenvDirname configs with
       | Some dotEnvDirname =>
           if negb (JS.isEmpty dotEnvDirname) && isAbsolute dotEnvDirname
           then [ DotenvProvider dotEnvDirname dotenvDefaultFiles ]
           else []
       | None => []
       end)
   ++ (match folders with
       | Some workspaceFolders =>
           flat_map
             (fun workspace =>
                DotenvProvider workspace dotenvDefaultFiles
                :: match dotenvDirname configs with
                   | Some dotEnvDirname =>
                       if negb (JS.isEmpty dotEnvDirname)
                          && negb (isAbsolute dotEnvDirname)
                       then [ DotenvProvider (join workspace dotEnvDirname)
                                             dotenvDefaultFiles ]
                       else []
                   | None => []
                   end)
             workspaceFolders
       | None => []
       end))%list.

(** [new] for each provider in turn: consecutive references. *)
Fixpoint allocate (next : nat) (datas : list ProviderData) : list EnvironmentProvider :=
  match datas with
  | [] => []
  | d :: rest => mkProvider next d :: allocate (S next) rest
  end.

(** The body of [initEnvironmentProvider]. *)
Definition initEnvironmentProvider (configs : Configs) (folders : option (list string))
           (st : State) : State :=
  let store :=
    match ownProviders st with
    | Some own =>
        let otherEnvProvider := filter (notOwn own) (storeProviders st) in
        JS.push [] otherEnvProvider
    | None => storeProviders st
    end in
  let own := allocate (nextRef st) (ownData configs folders) in
  mkState (JS.push store own) (Some own)
          (nextRef st + List.length own)%nat (S (refreshes st)).

(** Every provider in the store was created before the next reference. *)
Definition wellFormed (st : State) : Prop :=
  forall p, In p (storeProviders st) -> (ref p < nextRef st)%nat.

(** The providers of others that an initialisation keeps. *)
Definition kept (st : State)
  : list EnvironmentProvider :=
  match ownProviders st with
  | Some own => filter (notOwn own) (storeProviders st)
  | None => storeProviders st
  end.

End Providers.

Arguments JsonEnvProvider {Json Files}.
Arguments DotenvProvider {Json Files}.
Arguments mkProvider {Json Files}.
Arguments ref {Json Files}.
Arguments data {Json Files}.
Arguments mkConfigs {Json Files}.
Arguments environmentenvironments {Json Files}.
Arguments dotenvDirname {Json Files}.
Arguments dotenvDefaultFiles {Json Files}.
Arguments mkState {Json Files}.
Arguments storeProviders {Json Files}.
Arguments ownProviders {Json Files}.
Arguments nextRef {Json Files}.
Arguments refreshes {Json Files}.
Arguments notOwn {Json Files}.
Arguments ownData {Json Files}.
Arguments allocate {Json Files}.
Arguments initEnvironmentProvider {Json Files}.
Arguments wellFormed {Json Files}.
Arguments kept {Json Files}.

(** An entry of [httpFileStore]: a file name and the file's [env]. *)
Record HttpFileEntry := mkEntry { entryName : string; env : option string }.

(** [httpFileStore] with [environmentStore.activeEnv] and the information
    messages shown. *)
Record Stores := mkStores {
  httpFiles : list HttpFileEntry;
  activeEnv : option string;
  messages : list string
}.

(** The constant [commands]. *)
Definition toogleEnvCommand (APP_NAME : string) : string := APP_NAME ++ ".toggle-env".

(** [httpFileStore.get(fileName)] *)
Definition getFile (files : list HttpFileEntry) (fileName : string)
  : option HttpFileEntry :=
  find (fun f => String.eqb (entryName f) fileName) files.

(** [httpFile.env || '-'] *)
Definition envOrDash (e : option string) : string :=
  match e with
  | Some s => if JS.isEmpty s then "-" else s
  | None => "-"
  end.

(** [provideCodeLenses]: command and title of the lenses for a document. *)
Definition provideCodeLenses (APP_NAME : string) (st : Stores) (fileName : string)
  : list (string * string) :=
  match getFile (httpFiles st) fileName with
  | Some httpFile =>
      JS.push [] [ (toogleEnvCommand APP_NAME, "env: " ++ envOrDash (env httpFile)) ]
  | None => []
  end.

Section Picking.

(** The quick pick over environment names. *)
Variable showQuickPick : list string -> option string.

(** The body of [pickEnv]; [envs] is what [getEnviroments] resolves to. *)
Definition pickEnv (envs : option (list string)) (st : Stores)
  : Stores * option string :=
  match envs with
  | Some envs =>
      let picked := showQuickPick envs in
      (mkStores (httpFiles st) picked (messages st), picked)
  | None =>
      (mkStores (httpFiles st) (activeEnv st)
                (messages st ++ [ "no environment found" ]),
       activeEnv st)
  end.

(** [toogleAllEnv] *)
Definition toogleAllEnv (envs : option (list string)) (st : Stores) : Stores :=
  let (st1, picked) := pickEnv envs st in
  mkStores (map (fun httpFile => mkEntry (entryName httpFile) picked) (httpFiles st1))
           (activeEnv st1) (messages st1).

End Picking.

End EnvironmentController.

(** ** Sample inputs for the controllers *)

Module StoreControllerSamples.

Import StoreController.

(** Status bar enabled, no default background, [prod] an error
    environment and [test] a warning environment. *)
Definition config : Config :=
  mkConfig false (Some (mkCodeLensSetting true true true true)) true None
           (Some [ "prod" ]) (Some [ "test" ]) true false.

(** The error colour as default, and an empty string among the error
    environments. *)
Definition blankConfig : Config :=
  mkConfig false None true (Some error) (Some [ "prod"; EmptyString ]) None true false.

Definition hidden : StatusBarItem unit string :=
  mkStatusBarItem EmptyString None None None false.

End StoreControllerSamples.

Module EnvironmentControllerSamples.

Import EnvironmentController.

Definition isAbsolute (path : string) : bool := JS.startsWith path "/".
Definition join (a b : string) : string := (a ++ "/" ++ b)%string.

(** A store that holds one provider registered by someone else. *)
Definition foreign : State unit unit :=
  mkState [ mkProvider 0%nat (JsonEnvProvider tt) ] None 1%nat 0%nat.

Definition first : Configs unit unit := mkConfigs (Some tt) (Some "/etc/env") tt.
Definition second : Configs unit unit := mkConfigs None (Some "env") tt.

End EnvironmentControllerSamples.

(** ** Facts about the string primitives *)

Module JSFacts.

Lemma startsWith_nil (s : string) : JS.startsWith s EmptyString = true.
Proof. destruct s; reflexivity. Qed.

(** [startsWith] is the prefix relation. *)
Lemma startsWith_iff (s p : string) :
  JS.startsWith s p = true <-> exists r, s = (p ++ r)%string.
Proof.
  revert s; induction p as [|b p IH]; intros s.
  - rewrite startsWith_nil. split; [exists s; reflexivity | reflexivity].
  - destruct s as [|a s]; simpl.
    + split; [discriminate | intros [r Hr]; discriminate].
    + rewrite andb_true_iff, Ascii.eqb_eq, IH. split.
      * intros [-> [r ->]]. now exists r.
      * intros [r Hr]. injection Hr as Ha Hs. subst a s.
        split; [reflexivity | now exists r].
Qed.

Lemma startsWith_trans (s t p : string) :
  JS.startsWith s t = true -> JS.startsWith t p = true ->
  JS.startsWith s p = true.
Proof.
  rewrite !startsWith_iff. intros [r ->] [q ->].
  exists (q ++ r)%string. clear. induction p; simpl; congruence.
Qed.

(** Slicing off a prefix leaves the rest. *)
Lemma slice_prefix (p r : string) :
  JS.slice (p ++ r) (String.length p) = r.
Proof. induction p; simpl; [destruct r|]; auto. Qed.

(** What is typed followed by the sliced remainder is the whole name. *)
Lemma slice_completes (s p : string) :
  JS.startsWith s p = true ->
  (p ++ JS.slice s (String.length p))%string = s.
Proof.
  rewrite startsWith_iff. intros [r ->]. now rewrite slice_prefix.
Qed.

Lemma isEmpty_iff (s : string) : JS.isEmpty s = true <-> s = EmptyString.
Proof. destruct s; simpl; split; congruence. Qed.

Lemma toLowerCase_app (s t : string) :
  JS.toLowerCase (s ++ t) = (JS.toLowerCase s ++ JS.toLowerCase t)%string.
Proof. induction s; simpl; congruence. Qed.

(** A string whose first unit is not white space keeps it under [trim]. *)
Lemma trimEnd_head (c : ascii) (r : string) :
  JS.isWhiteSpace c = false ->
  exists r', JS.trimEnd (String c r) = String c r'.
Proof.
  intros Hc. cbn [JS.trimEnd]. rewrite Hc.
  destruct (JS.trimEnd r); eauto.
Qed.

Lemma trim_head (c : ascii) (r : string) :
  JS.isWhiteSpace c = false ->
  exists r', JS.trim (String c r) = String c r'.
Proof.
  intros Hc. unfold JS.trim. cbn [JS.trimStart]. rewrite Hc.
  now apply trimEnd_head.
Qed.

Lemma trimStart_length (t : string) :
  (String.length (JS.trimStart t) <= String.length t)%nat.
Proof.
  induction t as [|d t IHt]; cbn [JS.trimStart String.length]; [lia|].
  destruct (JS.isWhiteSpace d); cbn [String.length]; lia.
Qed.

(** [trimEnd] leaves a string that does not start with white space
    starting the same way. *)
Lemma trimEnd_trimStart_fixed (s : string) :
  JS.trimStart s = s -> JS.trimStart (JS.trimEnd s) = JS.trimEnd s.
Proof.
  destruct s as [|c r]; [reflexivity|].
  cbn [JS.trimStart]. destruct (JS.isWhiteSpace c) eqn:Hc.
  - intros Hr. exfalso.
    pose proof (trimStart_length r) as Hlen.
    rewrite Hr in Hlen. cbn [String.length] in Hlen. lia.
  - intros _. destruct (trimEnd_head c r Hc) as [r' ->].
    cbn [JS.trimStart]. now rewrite Hc.
Qed.

Lemma trimStart_idem (s : string) :
  JS.trimStart (JS.trimStart s) = JS.trimStart s.
Proof.
  induction s as [|c r IH]; [reflexivity|].
  cbn [JS.trimStart]. destruct (JS.isWhiteSpace c) eqn:Hc; [exact IH|].
  cbn [JS.trimStart]. now rewrite Hc.
Qed.

Lemma trimEnd_cons (c : ascii) (r : string) :
  JS.trimEnd (String c r) =
  match JS.trimEnd r with
  | EmptyString => if JS.isWhiteSpace c then EmptyString else String c EmptyString
  | r' => String c r'
  end.
Proof. reflexivity. Qed.

Lemma trimEnd_idem (s : string) :
  JS.trimEnd (JS.trimEnd s) = JS.trimEnd s.
Proof.
  induction s as [|c r IH]; [reflexivity|].
  rewrite (trimEnd_cons c r). destruct (JS.trimEnd r) as [|d r'] eqn:Hr.
  - destruct (JS.isWhiteSpace c) eqn:Hc; [reflexivity|].
    rewrite trimEnd_cons. cbn [JS.trimEnd]. now rewrite Hc.
  - rewrite trimEnd_cons, IH. reflexivity.
Qed.

(** [trim] is idempotent: the provider trims the line once in
    [provideCompletionItems] and again inside the streams. *)
Lemma trim_idem (s : string) : JS.trim (JS.trim s) = JS.trim s.
Proof.
  unfold JS.trim.
  rewrite (trimEnd_trimStart_fixed (JS.trimStart s) (trimStart_idem s)).
  apply trimEnd_idem.
Qed.

(** Pushing stream after stream onto an empty array is [flat_map]. *)
Lemma fold_push_flat_map {A B} (f : A -> list B) (l : list A) (acc : list B) :
  fold_left (fun result obj => JS.push result (f obj)) l acc
  = (acc ++ flat_map f l)%list.
Proof.
  revert acc; induction l as [|a l IH]; intros acc; simpl.
  - now rewrite app_nil_r.
  - rewrite IH. unfold JS.push. now rewrite app_assoc.
Qed.

(** Splitting a list at the first element [find] returns. *)
Lemma find_first {A} (f : A -> bool) (l : list A) (x : A) :
  find f l = Some x <->
  exists l1 l2, l = (l1 ++ x :: l2)%list /\ f x = true /\
                forall y, In y l1 -> f y = false.
Proof.
  induction l as [|a l IH]; simpl.
  - split; [discriminate|]. intros (l1 & l2 & Hl & _).
    destruct l1; discriminate.
  - destruct (f a) eqn:Ha.
    + split.
      * intros Heq. injection Heq as Heq. subst a.
        exists [], l. repeat split; auto. intros y [].
      * intros (l1 & l2 & Hl & Hx & Hl1).
        destruct l1 as [|b l1]; simpl in Hl.
        -- congruence.
        -- injection Hl as Hb _. subst b.
           rewrite (Hl1 a (or_introl eq_refl)) in Ha. discriminate.
    + rewrite IH. split.
      * intros (l1 & l2 & Hl & Hx & Hl1). subst l.
        exists (a :: l1), l2. repeat split; auto.
        intros y [Hy|Hy]; [subst; auto | auto].
      * intros (l1 & l2 & Hl & Hx & Hl1).
        destruct l1 as [|b l1]; simpl in Hl.
        -- injection Hl as Hax _. subst. congruence.
        -- injection Hl as Hb Hl. subst b l. exists l1, l2.
           repeat split; auto. intros y Hy. apply Hl1. now right.
Qed.

Lemma startsWith_app (s r : string) : JS.startsWith (s ++ r) s = true.
Proof. apply startsWith_iff. now exists r. Qed.

Lemma append_assoc (a b c : string) :
  ((a ++ b) ++ c)%string = (a ++ b ++ c)%string.
Proof. induction a; simpl; congruence. Qed.

Lemma isEmpty_app_cons (q : string) (a : ascii) (r : string) :
  JS.isEmpty (q ++ String a r) = false.
Proof. destruct q; reflexivity. Qed.

(** Slicing a candidate name at the length of a typed prefix of its first
    part leaves a non-empty rest that completes what was typed. *)
Lemma slice_typed_prefix (typed head tail : string) :
  JS.startsWith head typed = true ->
  exists q, head = (typed ++ q)%string
            /\ JS.slice (head ++ tail) (String.length typed) = (q ++ tail)%string.
Proof.
  rewrite startsWith_iff. intros [q ->]. exists q. split; [reflexivity|].
  rewrite append_assoc. apply slice_prefix.
Qed.

(** Lower-casing a code unit twice is lower-casing it once. *)
Lemma lowerUnit_idem (c : ascii) : JS.lowerUnit (JS.lowerUnit c) = JS.lowerUnit c.
Proof. destruct c as [[] [] [] [] [] [] [] []]; reflexivity. Qed.

(** A prefix of a lower-cased string is in lower case itself. *)
Lemma lower_case_prefix (s t : string) :
  JS.startsWith (JS.toLowerCase s) t = true -> JS.toLowerCase t = t.
Proof.
  revert s; induction t as [|b t IH]; intros s; [reflexivity|].
  destruct s as [|a s]; cbn [JS.toLowerCase JS.startsWith]; [discriminate|].
  rewrite andb_true_iff, Ascii.eqb_eq. intros [Hb Ht].
  rewrite (IH s Ht). rewrite <- Hb. now rewrite lowerUnit_idem.
Qed.

Lemma startsWith_lower (s p : string) :
  JS.startsWith s p = true ->
  JS.startsWith (JS.toLowerCase s) (JS.toLowerCase p) = true.
Proof.
  rewrite !startsWith_iff. intros [r ->].
  exists (JS.toLowerCase r). apply toLowerCase_app.
Qed.

(** Appending text to a line that is not blank leaves its trimmed start. *)
Lemma trimStart_app (r u : string) :
  JS.trimStart r = EmptyString
  \/ JS.trimStart (r ++ u) = (JS.trimStart r ++ u)%string.
Proof.
  induction r as [|c r IH]; [now left|].
  cbn [JS.trimStart append]. destruct (JS.isWhiteSpace c); [exact IH | now right].
Qed.

Lemma trimEnd_app_prefix (x u : string) :
  JS.startsWith (JS.trimEnd (x ++ u)) (JS.trimEnd x) = true.
Proof.
  induction x as [|c x IH]; [reflexivity|].
  cbn [append]. rewrite !trimEnd_cons.
  destruct (JS.trimEnd x) as [|d x'] eqn:Hx.
  - destruct (JS.trimEnd (x ++ u)) as [|e y].
    + destruct (JS.isWhiteSpace c); [reflexivity|].
      cbn [JS.startsWith]. now rewrite Ascii.eqb_refl.
    + destruct (JS.isWhiteSpace c); [reflexivity|].
      cbn [JS.startsWith]. now rewrite Ascii.eqb_refl.
  - destruct (JS.trimEnd (x ++ u)) as [|e y]; [discriminate IH|].
    cbn [JS.startsWith] in IH |- *. now rewrite Ascii.eqb_refl, IH.
Qed.

(** The trimmed line before more text is typed is a prefix of the trimmed
    line after. *)
Lemma trim_app_prefix (r u : string) :
  JS.startsWith (JS.trim (r ++ u)) (JS.trim r) = true.
Proof.
  unfold JS.trim. destruct (trimStart_app r u) as [Hblank | Happ].
  - rewrite Hblank. reflexivity.
  - rewrite Happ. apply trimEnd_app_prefix.
Qed.

(** [includes] is the substring relation. *)
Lemma includes_iff (s sub : string) :
  JS.includes s sub = true <-> exists a b, s = (a ++ sub ++ b)%string.
Proof.
  split.
  - induction s as [|c s IH]; cbn [JS.includes]; rewrite orb_true_iff.
    + intros [Hs|Hf]; [|discriminate]. apply startsWith_iff in Hs.
      destruct Hs as [r Hr]. now exists EmptyString, r.
    + intros [Hs|Hrest].
      * apply startsWith_iff in Hs. destruct Hs as [r Hr]. now exists EmptyString, r.
      * destruct (IH Hrest) as (a & b & ->). now exists (String c a), b.
  - intros (a & b & ->). induction a as [|c a IH].
    + cbn [append]. destruct (sub ++ b)%string eqn:Hsb; cbn [JS.includes];
        rewrite <- Hsb, startsWith_app; reflexivity.
    + cbn [append JS.includes]. rewrite IH. apply orb_true_r.
Qed.

Lemma includes_empty (s : string) : JS.includes s EmptyString = true.
Proof. destruct s; reflexivity. Qed.

(** Every element of a list occurs in the list joined with a separator. *)
Lemma includes_concat (sep e : string) (l : list string) :
  In e l -> JS.includes (String.concat sep l) e = true.
Proof.
  intros Hin. apply includes_iff.
  induction l as [|x l IH]; [destruct Hin|].
  destruct Hin as [-> | Hin].
  - destruct l as [|y l].
    + exists EmptyString, EmptyString. cbn [String.concat append].
      clear. induction e; cbn [append]; congruence.
    + exists EmptyString, (sep ++ String.concat sep (y :: l))%string. reflexivity.
  - destruct (IH Hin) as (a & b & Hab).
    destruct l as [|y l]; [destruct Hin|].
    exists (x ++ sep ++ a)%string, b.
    change (String.concat sep (x :: y :: l))
      with (x ++ sep ++ String.concat sep (y :: l))%string.
    rewrite Hab. now rewrite !append_assoc.
Qed.

Lemma append_cancel (p a b : string) :
  (p ++ a)%string = (p ++ b)%string -> a = b.
Proof. induction p; cbn [append]; [auto | intros [= H]; auto]. Qed.

End JSFacts.

(** ** The two filtered streams *)

Section Streams.

Context {ext : Externals}.

(** On a line typed in lower case the method stream is the prefix filter
    of the specification. *)
Lemma methods_lower_case_line (textLine : string) :
  JS.toLowerCase textLine = textLine ->
  getRequstMethodCompletionItems textLine = prefixFilterSpec methodTable textLine.
Proof.
  intros Hlow. unfold getRequstMethodCompletionItems, prefixFilterSpec.
  apply filter_ext. intros obj. rewrite Hlow.
  destruct textLine; [now rewrite JSFacts.startsWith_nil | reflexivity].
Qed.

(** The header stream is the prefix filter of the specification, applied
    to the table of the request's variant, for any typed line. *)
Lemma headers_prefix_filter (textLine : string) (region : HttpRegion) :
  getRequestHeaders textLine true (Some region) =
  match request region with
  | Some req => prefixFilterSpec (headerTableSpec (variant req)) (JS.trim textLine)
  | None => []
  end.
Proof.
  unfold getRequestHeaders. destruct (request region) as [req|]; [|reflexivity].
  unfold prefixFilterSpec, isHttpRequest, isMQTTRequest, isEventSourceRequest,
    isGrpcRequest, JS.push.
  assert (Hpred : forall obj : HttpCompletionItem,
             JS.isEmpty textLine
             || JS.startsWith (JS.toLowerCase (name obj))
                              (JS.toLowerCase (JS.trim textLine))
             = JS.startsWith (JS.toLowerCase (name obj))
                             (JS.toLowerCase (JS.trim textLine))).
  { intros obj. destruct textLine; [now rewrite JSFacts.startsWith_nil | reflexivity]. }
  destruct (variant req) as [[]|]; cbn [headerTableSpec app];
    apply filter_ext; exact Hpred.
Qed.

(** Outside header context, or without a region, the header stream is
    empty. *)
Lemma headers_no_context (textLine : string) (httpRegion : option HttpRegion) :
  getRequestHeaders textLine false httpRegion = [].
Proof. reflexivity. Qed.

Lemma headers_no_region (textLine : string) (b : bool) :
  getRequestHeaders textLine b None = [].
Proof. destruct b; reflexivity. Qed.

(** The array built by [provideCompletionItems] is the six streams in the
    order of the calls. *)
Lemma collectCandidates_streams (rangeText : string) (position : Position)
      (httpFile : option HttpFile) :
  collectCandidates rangeText position httpFile =
  (getRequstMethodCompletionItems (JS.trim rangeText)
   ++ getRequestHeaders (JS.trim rangeText) (headerContext httpFile position)
                        (findRegion httpFile position)
   ++ getMimetypes (JS.trim rangeText) (headerContext httpFile position)
   ++ getAuthorization (JS.trim rangeText) (headerContext httpFile position)
   ++ getMetaData (JS.trim rangeText) (headerContext httpFile position)
   ++ getRefName (JS.trim rangeText) httpFile)%list.
Proof.
  unfold collectCandidates, JS.push. cbn [app].
  now rewrite <- !app_assoc.
Qed.

End Streams.

(** ** Claims *)

Section Claims.

Context {ext : Externals}.

(** C1 (prefix filter, method stream).  The claim asks for case-insensitive
    prefix matching in the method stream as in the header stream.  On the
    typed line GE the method stream of the provider is empty, although the
    prefix filter of the specification keeps GET; on the same letters in
    lower case the provider does return GET. *)
Theorem C1_method_stream_upper_case_line :
  map name (getRequstMethodCompletionItems "GE") = []
  /\ map name (prefixFilterSpec methodTable "GE") = [ "GET" ]
  /\ map name (getRequstMethodCompletionItems "ge") = [ "GET" ]
  /\ provideCompletionItems "GE" (mkPosition 0 2) None = [].
Proof. repeat split; vm_compute; reflexivity. Qed.

(** C3 (header table by request variant).  In header context the header
    stream is the table of the region's request variant - the 56-entry
    HTTP table, the nine MQTT fields, Event, ChannelCredentials, or the
    empty table when the variant is unknown or the request absent -
    filtered by the typed line; on an empty line it is that table whole.
    One table is used, never two. *)
Theorem C3_header_table_by_variant (textLine : string) (region : HttpRegion) :
  getRequestHeaders textLine true (Some region)
  = match request region with
    | Some req =>
        match variant req with
        | Some Http => prefixFilterSpec httpHeaderTable (JS.trim textLine)
        | Some Mqtt => prefixFilterSpec mqttHeaderTable (JS.trim textLine)
        | Some EventSource => prefixFilterSpec eventSourceHeaderTable (JS.trim textLine)
        | Some Grpc => prefixFilterSpec grpcHeaderTable (JS.trim textLine)
        | None => []
        end
    | None => []
    end
  /\ getRequestHeaders EmptyString true (Some region)
     = match request region with
       | Some req => headerTableSpec (variant req)
       | None => []
       end
  /\ List.length httpHeaderTable = 56%nat
  /\ map name mqttHeaderTable
     = [ "username"; "password"; "clean"; "keepalive"; "QoS"; "retain";
         "subscribe"; "publish"; "topic" ]
  /\ map name eventSourceHeaderTable = [ "Event" ]
  /\ map name grpcHeaderTable = [ "ChannelCredentials" ].
Proof.
  split; [|split; [|repeat split]].
  - rewrite headers_prefix_filter.
    destruct (request region) as [req|]; [|reflexivity].
    destruct (variant req) as [[]|]; reflexivity.
  - rewrite headers_prefix_filter.
    destruct (request region) as [req|]; [|reflexivity].
    unfold prefixFilterSpec. cbn [JS.trim JS.trimStart JS.trimEnd JS.toLowerCase].
    clear. induction (headerTableSpec (variant req)) as [|c l IH]; [reflexivity|].
    cbn [filter]. rewrite JSFacts.startsWith_nil. now rewrite IH.
Qed.

(** C4 (stream order).  The returned items are the method candidates, then
    the header fields, the mime types, the authorization schemes, the
    meta directives and the references, each stream converted in place. *)
Theorem C4_stream_order (rangeText : string) (position : Position)
        (httpFile : option HttpFile) :
  provideCompletionItems rangeText position httpFile =
  (map toCompletionItem (getRequstMethodCompletionItems (JS.trim rangeText))
   ++ map toCompletionItem
        (getRequestHeaders (JS.trim rangeText) (headerContext httpFile position)
                           (findRegion httpFile position))
   ++ map toCompletionItem
        (getMimetypes (JS.trim rangeText) (headerContext httpFile position))
   ++ map toCompletionItem
        (getAuthorization (JS.trim rangeText) (headerContext httpFile position))
   ++ map toCompletionItem
        (getMetaData (JS.trim rangeText) (headerContext httpFile position))
   ++ map toCompletionItem (getRefName (JS.trim rangeText) httpFile))%list.
Proof.
  unfold provideCompletionItems. rewrite collectCandidates_streams.
  now rewrite !map_app.
Qed.

(** C5 (empty line, no document model).  When the trimmed line is empty and
    no file is available the provider returns the thirteen method keywords
    in table order and nothing else. *)
Theorem C5_empty_line_without_model (rangeText : string) (position : Position) :
  JS.trim rangeText = EmptyString ->
  provideCompletionItems rangeText position None = map toCompletionItem methodTable
  /\ map label (provideCompletionItems rangeText position None)
     = [ "GET"; "HEAD"; "POST"; "PUT"; "DELETE"; "CONNECT"; "OPTIONS";
         "TRACE"; "PATCH"; "MQTT"; "WSS"; "SSE"; "GRPC" ]
  /\ List.length (provideCompletionItems rangeText position None) = 13%nat.
Proof.
  intros Htrim.
  assert (Hall : provideCompletionItems rangeText position None
                 = map toCompletionItem methodTable).
  { unfold provideCompletionItems. rewrite collectCandidates_streams, Htrim.
    cbn [headerContext findRegion]. reflexivity. }
  rewrite Hall. repeat split; reflexivity.
Qed.

(** The loop of [getMetaData] pushes, directive after directive, what
    [metaDataItems] yields for the typed remainder. *)
Lemma getMetaData_comment_line (textLine : string) :
  JS.startsWith (JS.trim textLine) "#" = true ->
  getMetaData textLine false
  = flat_map (metaDataItems (JS.trim (JS.slice (JS.trim textLine) 1))) knownMetaData.
Proof.
  intros Hhash. unfold getMetaData. rewrite Hhash. cbn [negb andb].
  now rewrite JSFacts.fold_push_flat_map.
Qed.

(** C2, amended (meta directives with sub-completions).  On a comment line
    outside header context the meta stream lists, directive by directive,
    the candidates of [metaDataItems] for the typed remainder; in header
    context it is empty.  A directive with sub-completions is kept exactly
    when the remainder is empty or a case-sensitive prefix of the directive
    name with its at-sign (not of the full candidate name); when kept it
    yields one candidate per sub-completion, named at-sign, directive, blank,
    sub-completion, whose inserted text is that name without its first
    [length typed] units: the typed remainder followed by the inserted text
    is the full name. *)
Theorem C2_meta_directive_completions
        (textLine : string) (obj : KnownMetaData) (cs : list string) :
  JS.startsWith (JS.trim textLine) "#" = true ->
  completions obj = Some cs ->
  let typed := JS.trim (JS.slice (JS.trim textLine) 1) in
  let full := fun c : string => ("@" ++ metaName obj ++ " " ++ c)%string in
  let kept := JS.isEmpty typed || JS.startsWith ("@" ++ metaName obj) typed in
  getMetaData textLine false = flat_map (metaDataItems typed) knownMetaData
  /\ getMetaData textLine true = []
  /\ (kept = false -> metaDataItems typed obj = [])
  /\ (kept = true ->
      metaDataItems typed obj
      = map (fun c => mkItem (full c) (metaDescription obj)
                             (Some (JS.slice (full c) (String.length typed))) Field)
            cs
      /\ forall c item, In item (metaDataItems typed obj) -> name item = full c ->
           insertText (toCompletionItem item) = JS.slice (full c) (String.length typed)
           /\ (typed ++ insertText (toCompletionItem item))%string = full c).
Proof.
  intros Hhash Hcs typed full kept.
  split; [now apply getMetaData_comment_line|].
  split; [unfold getMetaData; now rewrite andb_false_r|].
  assert (Hitems : kept = true ->
            metaDataItems typed obj
            = map (fun c => mkItem (full c) (metaDescription obj)
                                   (Some (JS.slice (full c) (String.length typed)))
                                   Field) cs).
  { intros Hk. unfold metaDataItems. cbn [name description kind].
    fold kept. rewrite Hk, Hcs. reflexivity. }
  split.
  - intros Hk. unfold metaDataItems. cbn [name]. fold kept. now rewrite Hk.
  - intros Hk. split; [now apply Hitems|].
    intros c item Hin Hname. rewrite (Hitems Hk) in Hin.
    apply in_map_iff in Hin. destruct Hin as (c' & <- & _).
    cbn [name] in Hname. rewrite <- Hname.
    unfold toCompletionItem. cbn [text name].
    assert (Hrest : exists q,
               JS.slice (full c') (String.length typed) = (q ++ " " ++ c')%string
               /\ (typed ++ q ++ " " ++ c')%string = full c').
    { unfold kept in Hk. apply orb_true_iff in Hk. destruct Hk as [He|Hp].
      - apply JSFacts.isEmpty_iff in He. rewrite He.
        exists ("@" ++ metaName obj)%string. split; reflexivity.
      - destruct (JSFacts.slice_typed_prefix typed ("@" ++ metaName obj)
                    (" " ++ c') Hp) as (q & Hq & Hs).
        exists q. split.
        + unfold full. rewrite <- Hs. f_equal.
        + unfold full.
          change ("@" ++ metaName obj ++ " " ++ c')%string
            with (("@" ++ metaName obj) ++ " " ++ c')%string.
          rewrite Hq. now rewrite JSFacts.append_assoc. }
    destruct Hrest as (q & Hslice & Hwhole).
    rewrite Hslice. change (" " ++ c')%string with (String " " c').
    rewrite JSFacts.isEmpty_app_cons. split; [reflexivity | exact Hwhole].
Qed.

(** The regions [getRefName] keeps, by name. *)
Lemma named_regions_spec (regions : list HttpRegion) :
  map toHttpCompletionItem (filter hasName regions)
  = map (fun n => mkItem n "httpRegion name" None Reference)
        (regionNamesSpec regions).
Proof.
  induction regions as [|r rest IH]; [reflexivity|].
  cbn [filter regionNamesSpec]. unfold hasName at 1.
  destruct (regionName (metaData r)) as [[|c n]|] eqn:Hn; cbn [JS.isEmpty negb].
  - exact IH.
  - cbn [map]. rewrite IH. unfold toHttpCompletionItem at 1. now rewrite Hn.
  - exact IH.
Qed.

(** In reference context the reference stream is the named regions, whole. *)
Lemma getRefName_reference_line (line : string) (file : HttpFile) :
  JS.startsWith line "#" = true ->
  JS.includes (JS.toLowerCase line) "ref" = true ->
  getRefName line (Some file)
  = map toHttpCompletionItem (filter hasName (httpRegions file)).
Proof.
  intros Hhash Href. unfold getRefName. now rewrite Hhash, Href.
Qed.

(** C6 (reference candidates).  On a line that starts with the hash sign and
    contains ref in any case, with a file available, the reference stream
    has one Reference candidate per region with a non-empty name, in region
    order, named after the region and described by the fixed label; regions
    without a name add nothing and equal names are kept, so the stream is as
    long as the list of non-empty names. *)
Theorem C6_reference_candidates (line : string) (file : HttpFile) :
  JS.startsWith line "#" = true ->
  JS.includes (JS.toLowerCase line) "ref" = true ->
  getRefName line (Some file)
  = map (fun n => mkItem n "httpRegion name" None Reference)
        (regionNamesSpec (httpRegions file))
  /\ List.length (getRefName line (Some file))
     = List.length (regionNamesSpec (httpRegions file)).
Proof.
  intros Hhash Href.
  rewrite (getRefName_reference_line line file Hhash Href), named_regions_spec.
  split; [reflexivity | apply length_map].
Qed.

Lemma encloses_test (r : HttpRegion) (l : Z) :
  (startLine (symbol r) <=? l) && (l <=? endLine (symbol r)) = true
  <-> encloses r l.
Proof. unfold encloses. rewrite andb_true_iff, !Z.leb_le. tauto. Qed.

(** [findRegion] returns the first enclosing region. *)
Lemma findRegion_first (file : HttpFile) (position : Position) (region : HttpRegion) :
  findRegion (Some file) position = Some region
  <-> firstEnclosing (httpRegions file) (line position) region.
Proof.
  unfold findRegion, firstEnclosing. rewrite JSFacts.find_first.
  split; intros (before & after & Hsplit & H1 & H2); exists before, after.
  - split; [exact Hsplit|]. split.
    + intros r Hr Henc. apply encloses_test in Henc.
      rewrite (H2 r Hr) in Henc. discriminate.
    + now apply encloses_test.
  - split; [exact Hsplit|]. split.
    + now apply encloses_test.
    + intros r Hr. destruct (_ && _) eqn:Ht; [|reflexivity].
      apply encloses_test in Ht. now destruct (H1 r Hr).
Qed.

(** No region is selected exactly when no region encloses the line. *)
Lemma findRegion_none (file : HttpFile) (position : Position) :
  findRegion (Some file) position = None
  <-> forall r, In r (httpRegions file) -> ~ encloses r (line position).
Proof.
  unfold findRegion. split.
  - intros Hnone r Hr Henc. apply encloses_test in Henc.
    now rewrite (find_none _ _ Hnone r Hr) in Henc.
  - intros Hall. destruct (find _ _) as [r|] eqn:Hf; [|reflexivity].
    destruct (find_some _ _ Hf) as [Hin Ht]. apply encloses_test in Ht.
    now destruct (Hall r Hin).
Qed.

(** [isInRequestLine] looks at the first child on the preceding line. *)
Lemma isInRequestLine_first (region : HttpRegion) (l : Z) :
  isInRequestLine region l = true
  <-> exists cs pre,
        children (symbol region) = Some cs
        /\ firstStartingAt cs (l - 1) pre
        /\ opensHeader pre l.
Proof.
  unfold isInRequestLine, firstStartingAt, opensHeader. split.
  - destruct (children (symbol region)) as [cs|]; [|discriminate].
    destruct (find _ cs) as [pre|] eqn:Hf; [|discriminate].
    intros Hk. exists cs, pre. split; [reflexivity|].
    apply JSFacts.find_first in Hf. destruct Hf as (c1 & c2 & Hs & Hp & Hc1).
    apply Z.eqb_eq in Hp. split.
    + exists c1, c2. repeat split; auto.
      intros c Hc. apply Z.eqb_neq. now apply Hc1.
    + split; [exact Hp|]. destruct (symbolKind pre); auto; discriminate.
  - intros (cs & pre & Hcs & (c1 & c2 & Hs & Hc1 & Hp) & _ & Hk).
    rewrite Hcs.
    assert (Hf : find (fun obj => startLine obj =? l - 1) cs = Some pre).
    { apply JSFacts.find_first. exists c1, c2. repeat split; auto.
      - now apply Z.eqb_eq.
      - intros c Hc. apply Z.eqb_neq. now apply Hc1. }
    rewrite Hf. destruct Hk as [-> | ->]; reflexivity.
Qed.

(** Header context is decided by the first enclosing region and, in it, by
    the first child on the line before the cursor. *)
Lemma headerContext_first (httpFile : option HttpFile) (position : Position) :
  headerContext httpFile position = true
  <-> exists file region cs pre,
        httpFile = Some file
        /\ firstEnclosing (httpRegions file) (line position) region
        /\ children (symbol region) = Some cs
        /\ firstStartingAt cs (line position - 1) pre
        /\ opensHeader pre (line position).
Proof.
  unfold headerContext. split.
  - destruct httpFile as [file|]; [|discriminate].
    destruct (findRegion (Some file) position) as [region|] eqn:Hf; [|discriminate].
    intros Hin. apply isInRequestLine_first in Hin.
    destruct Hin as (cs & pre & Hcs & Hfirst & Hopen).
    exists file, region, cs, pre. repeat split; auto; try apply Hopen.
    now apply findRegion_first.
  - intros (file & region & cs & pre & -> & Hreg & Hcs & Hfirst & Hopen).
    apply findRegion_first in Hreg. rewrite Hreg.
    apply isInRequestLine_first. now exists cs, pre.
Qed.

(** When at most one region encloses the cursor line and the children of a
    region start on distinct lines, header context is the plain existence
    of an enclosing region with a request line or request header on the
    preceding line. *)
Lemma headerContext_unique_symbols (file : HttpFile) (position : Position) :
  (forall r1 r2, In r1 (httpRegions file) -> In r2 (httpRegions file) ->
     encloses r1 (line position) -> encloses r2 (line position) -> r1 = r2) ->
  (forall r cs c1 c2, In r (httpRegions file) -> children (symbol r) = Some cs ->
     In c1 cs -> In c2 cs -> startLine c1 = startLine c2 -> c1 = c2) ->
  headerContext (Some file) position = true
  <-> exists region cs child,
        In region (httpRegions file)
        /\ encloses region (line position)
        /\ children (symbol region) = Some cs /\ In child cs
        /\ opensHeader child (line position).
Proof.
  intros Hregions Hsymbols. rewrite headerContext_first. split.
  - intros (file' & region & cs & pre & Hfile & Hreg & Hcs & Hfirst & Hopen).
    injection Hfile as <-.
    destruct Hreg as (before & after & Hsplit & _ & Henc).
    destruct Hfirst as (c1 & c2 & Hcsplit & _ & _).
    exists region, cs, pre. repeat split; auto; try apply Henc; try apply Hopen.
    + rewrite Hsplit. apply in_or_app. right. now left.
    + rewrite Hcsplit. apply in_or_app. right. now left.
  - intros (region & cs & child & Hin & Henc & Hcs & Hchild & Hopen).
    destruct (findRegion (Some file) position) as [r|] eqn:Hf.
    + pose proof Hf as Hfirst. apply findRegion_first in Hfirst.
      assert (Hr : r = region).
      { destruct Hfirst as (before & after & Hsplit & _ & Henc').
        apply Hregions; auto. rewrite Hsplit. apply in_or_app. right. now left. }
      subst r.
      destruct (find (fun obj => startLine obj =? line position - 1) cs)
        as [pre|] eqn:Hfc.
      * pose proof Hfc as Hpre. apply JSFacts.find_first in Hpre.
        destruct Hpre as (c1 & c2 & Hcsplit & Hp & Hc1).
        apply Z.eqb_eq in Hp.
        assert (Hsame : pre = child).
        { apply (Hsymbols region cs); auto.
          - rewrite Hcsplit. apply in_or_app. right. now left.
          - destruct Hopen as [Hl _]. congruence. }
        subst pre. exists file, region, cs, child. repeat split; auto;
          try apply Henc; try apply Hopen.
        exists c1, c2. repeat split; auto.
        intros c Hc. apply Z.eqb_neq. now apply Hc1.
      * destruct Hopen as [Hl _].
        pose proof (find_none _ _ Hfc child Hchild) as Hno.
        apply Z.eqb_neq in Hno. contradiction.
    + pose proof (proj1 (findRegion_none file position) Hf) as Hno.
      now destruct (Hno region Hin).
Qed.

(** C7, amended (header context).  Header context holds exactly when a file
    is available, some region encloses the cursor line, and in the first
    such region the first child symbol that starts on the line before the
    cursor is a request line or a request header.  Then the condition of the
    claim holds as well: an enclosing region has a child on the preceding
    line of one of the two kinds.  When no region is selected - no file, or
    no region enclosing the line - header context does not apply and the
    header, mime-type and authorization streams are empty. *)
Theorem C7_header_context (httpFile : option HttpFile) (position : Position) :
  (headerContext httpFile position = true
   <-> exists file region cs pre,
         httpFile = Some file
         /\ firstEnclosing (httpRegions file) (line position) region
         /\ children (symbol region) = Some cs
         /\ firstStartingAt cs (line position - 1) pre
         /\ opensHeader pre (line position))
  /\ (headerContext httpFile position = true ->
      exists file region cs child,
        httpFile = Some file /\ In region (httpRegions file)
        /\ encloses region (line position)
        /\ children (symbol region) = Some cs /\ In child cs
        /\ opensHeader child (line position))
  /\ (findRegion httpFile position = None
      <-> forall file, httpFile = Some file ->
            forall r, In r (httpRegions file) -> ~ encloses r (line position))
  /\ (findRegion httpFile position = None ->
      headerContext httpFile position = false
      /\ forall textLine,
           getRequestHeaders textLine (headerContext httpFile position)
                             (findRegion httpFile position) = []
           /\ getMimetypes textLine (headerContext httpFile position) = []
           /\ getAuthorization textLine (headerContext httpFile position) = []).
Proof.
  split; [apply headerContext_first|]. split; [|split; [|]].
  - intros Hctx. apply headerContext_first in Hctx.
    destruct Hctx as (file & region & cs & pre & -> & Hreg & Hcs & Hfirst & Hopen).
    destruct Hreg as (before & after & Hsplit & _ & Henc).
    destruct Hfirst as (c1 & c2 & Hcsplit & _ & _).
    exists file, region, cs, pre. repeat split; auto; try apply Henc; try apply Hopen.
    + rewrite Hsplit. apply in_or_app. right. now left.
    + rewrite Hcsplit. apply in_or_app. right. now left.
  - destruct httpFile as [file|].
    + rewrite findRegion_none. split.
      * intros Hall file' Heq. now injection Heq as <-.
      * intros Hall. now apply Hall.
    + split; [intros _ file Hfile; discriminate | reflexivity].
  - intros Hnone. unfold headerContext. rewrite Hnone.
    split; [reflexivity|]. intros textLine. repeat split; reflexivity.
Qed.

(** In header context, on a line that mentions content-type, the mime
    stream is the imported table followed by the synthetic entry. *)
Lemma getMimetypes_table (line : string) :
  JS.includes (JS.toLowerCase line) "content-type" = true ->
  getMimetypes line true
  = (map (fun entry => mkItem (snd entry) (fst entry) None Value) types
     ++ [ mkItem "application/x-www-form-urlencoded"
                 "application/x-www-form-urlencoded" None Value ])%list.
Proof.
  intros Hct. unfold getMimetypes, JS.push. rewrite Hct. cbn [andb].
  f_equal. apply map_ext. now intros [key value].
Qed.

(** Every candidate the header stream returns matches the typed line. *)
Lemma headers_match_line (textLine : string) (b : bool)
      (httpRegion : option HttpRegion) (c : HttpCompletionItem) :
  In c (getRequestHeaders textLine b httpRegion) ->
  JS.startsWith (JS.toLowerCase (name c)) (JS.toLowerCase (JS.trim textLine)) = true.
Proof.
  destruct b; [|intros []].
  destruct httpRegion as [region|]; [|intros []].
  rewrite headers_prefix_filter. destruct (request region) as [req|]; [|intros []].
  unfold prefixFilterSpec. intros Hin. now apply filter_In in Hin.
Qed.

(** Directives that fail the test of [getMetaData] contribute nothing, so
    the loop may as well run over the directives that pass it. *)
Lemma flat_map_metaDataItems (typed : string) (directives : list KnownMetaData) :
  flat_map (metaDataItems typed) directives
  = flat_map (metaDataItems typed)
      (filter (fun obj => JS.isEmpty typed
                          || JS.startsWith ("@" ++ metaName obj) typed)
              directives).
Proof.
  induction directives as [|obj rest IH]; [reflexivity|].
  cbn [flat_map filter]. rewrite IH.
  destruct (JS.isEmpty typed || JS.startsWith ("@" ++ metaName obj) typed) eqn:Hk.
  - reflexivity.
  - unfold metaDataItems at 1. cbn [name]. now rewrite Hk.
Qed.

(** C8, amended (which streams pass through a prefix filter).  The
    mime-type, authorization and reference streams pass through none:
    whenever their context applies each is returned whole - the imported
    mapping with the synthetic entry, the six schemes, every named region -
    whatever is typed.  The header stream is the case-insensitive prefix
    filter of the specification applied to the table of the request's
    variant.  The meta-directive stream is filtered by its own test: it is
    built from the directives for which the typed remainder is empty or a
    case-sensitive prefix of the directive name with its at-sign. *)
Theorem C8_unfiltered_streams (textLine : string) :
  (JS.includes (JS.toLowerCase textLine) "content-type" = true ->
   getMimetypes textLine true
   = (map (fun entry => mkItem (snd entry) (fst entry) None Value) types
      ++ [ mkItem "application/x-www-form-urlencoded"
                  "application/x-www-form-urlencoded" None Value ])%list)
  /\ (JS.includes (JS.toLowerCase textLine) "authorization" = true ->
      getAuthorization textLine true = authorizationTable)
  /\ (JS.startsWith textLine "#" = true ->
      JS.includes (JS.toLowerCase textLine) "ref" = true ->
      forall file,
        getRefName textLine (Some file)
        = map (fun n => mkItem n "httpRegion name" None Reference)
              (regionNamesSpec (httpRegions file)))
  /\ (forall region req,
        request region = Some req ->
        getRequestHeaders textLine true (Some region)
        = prefixFilterSpec (headerTableSpec (variant req)) (JS.trim textLine))
  /\ (JS.startsWith (JS.trim textLine) "#" = true ->
      getMetaData textLine false
      = flat_map (metaDataItems (JS.trim (JS.slice (JS.trim textLine) 1)))
          (filter (fun obj =>
                     JS.isEmpty (JS.trim (JS.slice (JS.trim textLine) 1))
                     || JS.startsWith ("@" ++ metaName obj)
                                      (JS.trim (JS.slice (JS.trim textLine) 1)))
                  knownMetaData)).
Proof.
  split; [|split; [|split; [|split]]].
  - apply getMimetypes_table.
  - intros Hauth. unfold getAuthorization. now rewrite Hauth.
  - intros Hhash Href file.
    rewrite (getRefName_reference_line textLine file Hhash Href).
    apply named_regions_spec.
  - intros region req Hreq. rewrite headers_prefix_filter. now rewrite Hreq.
  - intros Hhash. rewrite (getMetaData_comment_line textLine Hhash).
    apply flat_map_metaDataItems.
Qed.

(** C9 (mime types).  In header context, on a line that contains
    content-type in any case, the mime stream has one Value candidate per
    entry of the imported mapping, named by the content type and described
    by the extension, followed by the synthetic form-urlencoded candidate,
    which is there whatever the imported mapping holds; the provider
    returns it among its items. *)
Theorem C9_mime_type_candidates
        (rangeText : string) (position : Position) (httpFile : option HttpFile) :
  headerContext httpFile position = true ->
  JS.includes (JS.toLowerCase (JS.trim rangeText)) "content-type" = true ->
  let synthetic := mkItem "application/x-www-form-urlencoded"
                          "application/x-www-form-urlencoded" None Value in
  let mimes := getMimetypes (JS.trim rangeText) (headerContext httpFile position) in
  mimes = (map (fun entry => mkItem (snd entry) (fst entry) None Value) types
           ++ [ synthetic ])%list
  /\ List.length mimes = S (List.length types)
  /\ In synthetic mimes
  /\ In (toCompletionItem synthetic)
        (provideCompletionItems rangeText position httpFile).
Proof.
  intros Hctx Hct synthetic mimes. subst mimes. rewrite Hctx.
  pose proof (getMimetypes_table (JS.trim rangeText) Hct) as Htable.
  assert (Hsyn : In synthetic (getMimetypes (JS.trim rangeText) true)).
  { rewrite Htable. apply in_or_app. right. now left. }
  split; [exact Htable|]. split; [|split; [exact Hsyn|]].
  - rewrite Htable, length_app, length_map. cbn [List.length]. lia.
  - unfold provideCompletionItems. apply in_map.
    rewrite collectCandidates_streams, Hctx.
    apply in_or_app. right. apply in_or_app. right.
    apply in_or_app. left. exact Hsyn.
Qed.

(** A filter whose key starts with the hash sign empties a hash-free table. *)
Lemma filter_hash_key (tbl : list HttpCompletionItem) (t key : string) :
  hashFree tbl = true ->
  JS.isEmpty t = false ->
  JS.startsWith key "#" = true ->
  filter (fun obj => JS.isEmpty t || JS.startsWith (JS.toLowerCase (name obj)) key) tbl
  = [].
Proof.
  intros Hfree Ht Hkey. unfold hashFree in Hfree. rewrite forallb_forall in Hfree.
  rewrite Ht. cbn [orb].
  induction tbl as [|obj tbl IH]; [reflexivity|].
  cbn [filter].
  destruct (JS.startsWith (JS.toLowerCase (name obj)) key) eqn:Hs.
  - pose proof (JSFacts.startsWith_trans _ _ _ Hs Hkey) as Hhash.
    specialize (Hfree obj (or_introl eq_refl)). rewrite Hhash in Hfree. discriminate.
  - apply IH. intros x Hx. apply Hfree. now right.
Qed.

(** A line that starts with the hash sign is not empty and still starts
    with it after trimming and lower-casing. *)
Lemma hash_line (t : string) :
  JS.startsWith t "#" = true ->
  JS.isEmpty t = false
  /\ JS.startsWith (JS.toLowerCase (JS.trim t)) "#" = true.
Proof.
  destruct t as [|c r]; [discriminate|]. cbn [JS.startsWith].
  rewrite andb_true_iff, Ascii.eqb_eq. intros [-> _].
  split; [reflexivity|].
  destruct (JSFacts.trim_head "#" r eq_refl) as [r' ->]. reflexivity.
Qed.

Lemma methods_hash_line (t : string) :
  JS.startsWith t "#" = true -> getRequstMethodCompletionItems t = [].
Proof.
  intros Hhash. destruct (hash_line t Hhash) as [Hne _].
  unfold getRequstMethodCompletionItems. now apply filter_hash_key.
Qed.

Lemma headers_hash_line (t : string) (b : bool) (httpRegion : option HttpRegion) :
  JS.startsWith t "#" = true -> getRequestHeaders t b httpRegion = [].
Proof.
  intros Hhash. destruct (hash_line t Hhash) as [Hne Hkey].
  destruct b; [|reflexivity]. destruct httpRegion as [region|]; [|reflexivity].
  unfold getRequestHeaders. destruct (request region) as [req|]; [|reflexivity].
  unfold JS.push. cbn [app].
  destruct (isHttpRequest req); [now apply filter_hash_key|].
  destruct (isMQTTRequest req); [now apply filter_hash_key|].
  destruct (isEventSourceRequest req); [now apply filter_hash_key|].
  destruct (isGrpcRequest req); [now apply filter_hash_key | reflexivity].
Qed.

(** C10, amended (comment lines).  On a line whose trimmed text starts with
    the hash sign the method stream is empty, and so is the header stream:
    no table name starts with the hash sign.  The output is then made of the
    mime-type, authorization, meta-directive and reference streams; outside
    header context only of the last two. *)
Theorem C10_comment_line_streams
        (rangeText : string) (position : Position) (httpFile : option HttpFile) :
  JS.startsWith (JS.trim rangeText) "#" = true ->
  let textLine := JS.trim rangeText in
  let ctx := headerContext httpFile position in
  getRequstMethodCompletionItems textLine = []
  /\ getRequestHeaders textLine ctx (findRegion httpFile position) = []
  /\ collectCandidates rangeText position httpFile
     = (getMimetypes textLine ctx ++ getAuthorization textLine ctx
        ++ getMetaData textLine ctx ++ getRefName textLine httpFile)%list
  /\ (ctx = false ->
      collectCandidates rangeText position httpFile
      = (getMetaData textLine false ++ getRefName textLine httpFile)%list).
Proof.
  intros Hhash textLine ctx.
  pose proof (methods_hash_line textLine Hhash) as Hm.
  pose proof (headers_hash_line textLine ctx (findRegion httpFile position) Hhash) as Hh.
  assert (Hall : collectCandidates rangeText position httpFile
                 = (getMimetypes textLine ctx ++ getAuthorization textLine ctx
                    ++ getMetaData textLine ctx ++ getRefName textLine httpFile)%list).
  { rewrite collectCandidates_streams. fold textLine. fold ctx. now rewrite Hm, Hh. }
  split; [exact Hm|]. split; [exact Hh|]. split; [exact Hall|].
  intros Hctx. rewrite Hall, Hctx. reflexivity.
Qed.

End Claims.

(** ** Further properties of the completion provider *)

Section ProviderEdges.

Context {ext : Externals}.

Lemma filter_none {A} (f : A -> bool) (l : list A) :
  (forall x, In x l -> f x = false) -> filter f l = [].
Proof.
  induction l as [|a l IH]; intros Hall; [reflexivity|].
  cbn [filter]. rewrite (Hall a (or_introl eq_refl)).
  apply IH. intros x Hx. apply Hall. now right.
Qed.

(** X1.  A typed line that holds an upper-case unit gets no method keyword:
    the names are lower-cased before the comparison, the line is not. *)
Theorem methods_upper_case_line (textLine : string) :
  JS.toLowerCase textLine <> textLine ->
  getRequstMethodCompletionItems textLine = [].
Proof.
  intros Hup. unfold getRequstMethodCompletionItems. apply filter_none.
  intros obj _. apply orb_false_iff. split.
  - destruct textLine; [now destruct Hup | reflexivity].
  - destruct (JS.startsWith _ textLine) eqn:Hs; [|reflexivity].
    destruct Hup. exact (JSFacts.lower_case_prefix _ _ Hs).
Qed.

(** X2.  Typing on never adds a method or header candidate: what is
    offered after more text is typed was offered before. *)
Theorem typing_narrows_filtered_streams
        (rangeText more : string) (b : bool) (httpRegion : option HttpRegion)
        (c : HttpCompletionItem) :
  (In c (getRequstMethodCompletionItems (JS.trim (rangeText ++ more))) ->
   In c (getRequstMethodCompletionItems (JS.trim rangeText)))
  /\ (In c (getRequestHeaders (JS.trim (rangeText ++ more)) b httpRegion) ->
      In c (getRequestHeaders (JS.trim rangeText) b httpRegion)).
Proof.
  pose proof (JSFacts.trim_app_prefix rangeText more) as Hprefix.
  split.
  - unfold getRequstMethodCompletionItems. rewrite !filter_In.
    intros [Hin Hc]. split; [exact Hin|].
    apply orb_true_iff in Hc. apply orb_true_iff. destruct Hc as [He|Hs].
    + left. apply JSFacts.isEmpty_iff in He. rewrite He in Hprefix.
      destruct (JS.trim rangeText); [reflexivity | discriminate Hprefix].
    + right. exact (JSFacts.startsWith_trans _ _ _ Hs Hprefix).
  - destruct b; [|intros []]. destruct httpRegion as [region|]; [|intros []].
    rewrite !headers_prefix_filter. destruct (request region) as [req|]; [|intros []].
    unfold prefixFilterSpec. rewrite !filter_In, !JSFacts.trim_idem.
    intros [Hin Hs]. split; [exact Hin|].
    apply (JSFacts.startsWith_trans _ _ _ Hs).
    now apply JSFacts.startsWith_lower.
Qed.

(** X3.  The header stream does not see the case of what is typed: two
    lines that agree after trimming and lower-casing get the same header
    fields. *)
Theorem headers_ignore_case (t1 t2 : string) (b : bool)
        (httpRegion : option HttpRegion) :
  JS.toLowerCase (JS.trim t1) = JS.toLowerCase (JS.trim t2) ->
  getRequestHeaders t1 b httpRegion = getRequestHeaders t2 b httpRegion.
Proof.
  intros Heq. destruct b; [|reflexivity].
  destruct httpRegion as [region|]; [|reflexivity].
  rewrite !headers_prefix_filter. destruct (request region); [|reflexivity].
  unfold prefixFilterSpec. now rewrite Heq.
Qed.

(** X4.  Without a document model the provider returns the method stream
    followed by the meta-directive stream and nothing else; on a line that
    is not a comment, the method stream alone. *)
Theorem no_model_streams (rangeText : string) (position : Position) :
  provideCompletionItems rangeText position None
  = map toCompletionItem
      (getRequstMethodCompletionItems (JS.trim rangeText)
       ++ getMetaData (JS.trim rangeText) false)
  /\ (JS.startsWith (JS.trim rangeText) "#" = false ->
      provideCompletionItems rangeText position None
      = map toCompletionItem (getRequstMethodCompletionItems (JS.trim rangeText))).
Proof.
  assert (Hall : provideCompletionItems rangeText position None
                 = map toCompletionItem
                     (getRequstMethodCompletionItems (JS.trim rangeText)
                      ++ getMetaData (JS.trim rangeText) false)).
  { unfold provideCompletionItems. rewrite collectCandidates_streams.
    cbn [headerContext findRegion getRefName getMimetypes getAuthorization andb].
    rewrite headers_no_region. cbn [app]. now rewrite app_nil_r. }
  split; [exact Hall|].
  intros Hplain. rewrite Hall. unfold getMetaData.
  rewrite JSFacts.trim_idem, Hplain. cbn [andb]. now rewrite app_nil_r.
Qed.

(** X5.  Meta directives are never offered together with header fields,
    mime types or authorization schemes: in one invocation either the meta
    stream or those three streams are empty. *)
Theorem meta_excludes_header_streams
        (textLine : string) (position : Position) (httpFile : option HttpFile) :
  let ctx := headerContext httpFile position in
  getMetaData textLine ctx = []
  \/ (getRequestHeaders textLine ctx (findRegion httpFile position) = []
      /\ getMimetypes textLine ctx = []
      /\ getAuthorization textLine ctx = []).
Proof.
  intros ctx. destruct ctx.
  - left. unfold getMetaData. now rewrite andb_false_r.
  - right. repeat split; reflexivity.
Qed.

(** X6.  On a comment line whose text after the hash sign is not empty and
    does not begin with the at-sign, no meta directive is offered, whatever
    the directive table holds. *)
Theorem meta_needs_at_sign (textLine : string) (b : bool) :
  let typed := JS.trim (JS.slice (JS.trim textLine) 1) in
  typed <> EmptyString ->
  JS.startsWith typed "@" = false ->
  getMetaData textLine b = [].
Proof.
  intros typed Hne Hat. unfold getMetaData.
  destruct (JS.startsWith (JS.trim textLine) "#" && negb b); [|reflexivity].
  rewrite JSFacts.fold_push_flat_map. cbn [app]. fold typed.
  induction knownMetaData as [|obj rest IH]; [reflexivity|].
  cbn [flat_map]. rewrite IH, app_nil_r.
  unfold metaDataItems. cbn [name].
  destruct typed as [|a typed']; [now destruct Hne|].
  cbn [JS.isEmpty orb JS.startsWith append] in Hat |- *.
  rewrite andb_true_r in Hat.
  destruct (Ascii.eqb a "@") eqn:Ha; [discriminate Hat|].
  rewrite Ascii.eqb_sym, Ha. reflexivity.
Qed.

(** X7.  A directive without sub-completions that is kept yields one
    candidate labelled with the directive name.  While the name is typed in
    part, the inserted text is the missing rest; once the whole name is
    typed, the sliced text is empty and the whole name is inserted
    again. *)
Theorem meta_plain_directive_insert_text (typed : string) (obj : KnownMetaData) :
  completions obj = None ->
  JS.isEmpty typed || JS.startsWith ("@" ++ metaName obj) typed = true ->
  let full := ("@" ++ metaName obj)%string in
  exists item,
    metaDataItems typed obj = [ item ]
    /\ label (toCompletionItem item) = full
    /\ (typed = full -> insertText (toCompletionItem item) = full)
    /\ (typed <> full ->
        (typed ++ insertText (toCompletionItem item))%string = full).
Proof.
  intros Hnone Hkept full.
  exists (mkItem full (metaDescription obj)
                 (Some (JS.slice full (String.length typed))) Field).
  split; [|split; [reflexivity|split]].
  - unfold metaDataItems. cbn [name description kind].
    now rewrite Hkept, Hnone.
  - intros ->. unfold toCompletionItem. cbn [text name].
    replace (JS.slice full (String.length full)) with EmptyString; [reflexivity|].
    clear. induction full; cbn [JS.slice String.length]; auto.
  - intros Hdiff. unfold toCompletionItem. cbn [text name].
    apply orb_true_iff in Hkept. destruct Hkept as [He|Hp].
    + apply JSFacts.isEmpty_iff in He. subst typed. reflexivity.
    + pose proof (JSFacts.slice_completes _ _ Hp) as Hwhole. fold full in Hwhole.
      destruct (JS.slice full (String.length typed)) as [|a q] eqn:Hq.
      * destruct Hdiff. rewrite <- Hwhole. clear. induction typed; simpl; congruence.
      * exact Hwhole.
Qed.

Lemma namesNotEmpty_In (tbl : list HttpCompletionItem) (c : HttpCompletionItem) :
  namesNotEmpty tbl = true -> In c tbl -> name c <> EmptyString.
Proof.
  unfold namesNotEmpty. rewrite forallb_forall. intros Hall Hin He.
  specialize (Hall c Hin). now rewrite He in Hall.
Qed.

(** Every candidate of every stream has a name, provided the imported
    mime-type mapping has no empty content type. *)
Lemma candidates_named (rangeText : string) (position : Position)
      (httpFile : option HttpFile) (c : HttpCompletionItem) :
  (forall entry, In entry types -> snd entry <> EmptyString) ->
  In c (collectCandidates rangeText position httpFile) ->
  name c <> EmptyString.
Proof.
  intros Htypes. rewrite collectCandidates_streams.
  set (t := JS.trim rangeText). set (ctx := headerContext httpFile position).
  rewrite !in_app_iff. intros [Hm|[Hh|[Hmi|[Ha|[Hmeta|Href]]]]].
  - unfold getRequstMethodCompletionItems in Hm. apply filter_In in Hm.
    now apply (namesNotEmpty_In methodTable c).
  - destruct ctx; [|destruct Hh].
    destruct (findRegion httpFile position) as [region|]; [|destruct Hh].
    rewrite headers_prefix_filter in Hh.
    destruct (request region) as [req|]; [|destruct Hh].
    unfold prefixFilterSpec in Hh. apply filter_In in Hh. destruct Hh as [Hin _].
    destruct (variant req) as [[]|]; cbn [headerTableSpec] in Hin;
      try (now apply (namesNotEmpty_In _ c) in Hin); destruct Hin.
  - unfold getMimetypes, JS.push in Hmi.
    destruct (ctx && _); [|destruct Hmi].
    apply in_app_iff in Hmi. destruct Hmi as [Hin|[<-|[]]]; [|discriminate].
    apply in_map_iff in Hin. destruct Hin as ([key value] & <- & Hentry).
    exact (Htypes _ Hentry).
  - unfold getAuthorization in Ha. destruct (ctx && _); [|destruct Ha].
    now apply (namesNotEmpty_In authorizationTable c).
  - unfold getMetaData in Hmeta. destruct (_ && negb ctx); [|destruct Hmeta].
    rewrite JSFacts.fold_push_flat_map in Hmeta. cbn [app] in Hmeta.
    apply in_flat_map in Hmeta. destruct Hmeta as (obj & _ & Hin).
    unfold metaDataItems in Hin. destruct (_ || _); [|destruct Hin].
    destruct (completions obj) as [cs|].
    + apply in_map_iff in Hin. destruct Hin as (x & <- & _). discriminate.
    + destruct Hin as [<-|[]]. discriminate.
  - unfold getRefName in Href. destruct httpFile as [file|]; [|destruct Href].
    destruct (_ && _); [|destruct Href]. unfold JS.push in Href. cbn [app] in Href.
    apply in_map_iff in Href. destruct Href as (r & <- & Hr).
    apply filter_In in Hr. destruct Hr as [_ Hn]. unfold hasName in Hn.
    unfold toHttpCompletionItem. cbn [name].
    destruct (regionName (metaData r)) as [[|a n]|]; discriminate.
Qed.

(** X8.  No returned completion item has an empty label or an empty
    insert text, provided the imported mime-type mapping has no empty
    content type. *)
Theorem items_never_blank (rangeText : string) (position : Position)
        (httpFile : option HttpFile) (item : CompletionItem) :
  (forall entry, In entry types -> snd entry <> EmptyString) ->
  In item (provideCompletionItems rangeText position httpFile) ->
  label item <> EmptyString /\ insertText item <> EmptyString.
Proof.
  intros Htypes Hin. unfold provideCompletionItems in Hin.
  apply in_map_iff in Hin. destruct Hin as (c & <- & Hc).
  pose proof (candidates_named _ _ _ _ Htypes Hc) as Hname.
  unfold toCompletionItem. cbn [label insertText]. split; [exact Hname|].
  destruct (text c) as [[|a s]|]; cbn [JS.isEmpty]; auto; discriminate.
Qed.

End ProviderEdges.

(** C5 at a line of blanks. *)
Lemma C5_empty_line_without_model_witness :
  JS.trim "   " = EmptyString
  /\ map label (provideCompletionItems (ext := sampleExternals) "   " (mkPosition 3 3) None)
     = [ "GET"; "HEAD"; "POST"; "PUT"; "DELETE"; "CONNECT"; "OPTIONS";
         "TRACE"; "PATCH"; "MQTT"; "WSS"; "SSE"; "GRPC" ].
Proof.
  split; [reflexivity|].
  apply (C5_empty_line_without_model (ext := sampleExternals) "   " (mkPosition 3 3)).
  reflexivity.
Defined.

(** C2 on the line [#@ref] with a directive [ref] that has the
    sub-completions foo and bar: a blank and the sub-completion are
    inserted. *)
Lemma C2_meta_directive_completions_witness :
  map (fun item => (label item, insertText item))
      (map toCompletionItem (getMetaData (ext := refExternals) "#@ref" false))
  = [ ("@ref foo", " foo"); ("@ref bar", " bar") ].
Proof.
  destruct (C2_meta_directive_completions (ext := refExternals) "#@ref"
              (mkKnown "ref" "reference" (Some [ "foo"; "bar" ])) [ "foo"; "bar" ]
              eq_refl eq_refl) as (Hall & _ & _ & Hkept).
  destruct (Hkept eq_refl) as (Hitems & _).
  rewrite Hall. cbn [knownMetaData refExternals flat_map].
  rewrite Hitems. reflexivity.
Defined.

(** C2 as stated fails on the code.  The typed remainder [@loop f] is a
    case-sensitive prefix of the full candidate name [@loop for 3], yet the
    candidate is dropped; and on the line [#ref] no directive completion is
    returned, although the directive [ref] has sub-completions. *)
Lemma C2_counterexample :
  ~ (JS.startsWith "@loop for 3" (JS.trim (JS.slice (JS.trim "#@loop f") 1)) = true ->
     In "@loop for 3"
        (map name (getMetaData (ext := sampleExternals) "#@loop f" false)))
  /\ ~ (exists c, In c (getMetaData (ext := refExternals) "#ref" false)
                  /\ JS.startsWith (name c) "@ref" = true).
Proof.
  split.
  - intros Hclaim. specialize (Hclaim eq_refl). vm_compute in Hclaim. exact Hclaim.
  - intros (c & Hin & _). vm_compute in Hin. exact Hin.
Qed.

(** C6 on the line [# ref foo] in a file with two regions named foo and one
    without a name: two candidates named foo. *)
Lemma C6_reference_candidates_witness :
  regionNamesSpec (httpRegions sampleFile) = [ "foo"; "foo" ]
  /\ getRefName "# ref foo" (Some sampleFile)
     = [ mkItem "foo" "httpRegion name" None Reference;
         mkItem "foo" "httpRegion name" None Reference ].
Proof.
  split; [reflexivity|].
  apply (C6_reference_candidates "# ref foo" sampleFile eq_refl eq_refl).
Defined.

(** C7 past the end of the sample file: line 12 lies in no region. *)
Lemma C7_header_context_witness :
  findRegion (Some sampleFile) (mkPosition 12 0) = None
  /\ headerContext (Some sampleFile) (mkPosition 12 0) = false
  /\ getAuthorization "authorization: "
       (headerContext (Some sampleFile) (mkPosition 12 0)) = [].
Proof.
  split; [reflexivity|].
  destruct (C7_header_context (ext := sampleExternals) (Some sampleFile)
              (mkPosition 12 0)) as (_ & _ & _ & Hnone).
  destruct (Hnone eq_refl) as (Hctx & Hstreams).
  split; [exact Hctx|]. apply (Hstreams "authorization: ").
Defined.

(** C7 as stated fails on the code.  The only region of the file encloses
    line 5 and has a request-line child that starts on line 4, but another
    child that starts on line 4 comes first, so header context does not
    hold. *)
Lemma C7_counterexample :
  ~ (headerContext (Some shadowedFile) (mkPosition 5 0) = true
     <-> exists region cs child,
           In region (httpRegions shadowedFile)
           /\ encloses region 5
           /\ children (symbol region) = Some cs /\ In child cs
           /\ opensHeader child 5).
Proof.
  intros [_ Hback].
  assert (Hctx : headerContext (Some shadowedFile) (mkPosition 5 0) = true).
  { apply Hback.
    exists regionShadowed,
      [ mkSymbol 4 4 otherSymbol None; mkSymbol 4 4 requestLine None ],
      (mkSymbol 4 4 requestLine None).
    repeat split; simpl; auto; lia. }
  vm_compute in Hctx. discriminate Hctx.
Qed.

(** C8 at three typed lines: both regions named foo are offered although
    neither name starts with what was typed, all six schemes although none
    starts with [authorization: b], the whole mapping although no content
    type starts with [content-type: text]. *)
Lemma C8_unfiltered_streams_witness :
  getRefName "# @ref f" (Some sampleFile)
  = [ mkItem "foo" "httpRegion name" None Reference;
      mkItem "foo" "httpRegion name" None Reference ]
  /\ getAuthorization "authorization: b" true = authorizationTable
  /\ getMimetypes (ext := sampleExternals) "content-type: text" true
     = [ mkItem "application/json" "json" None Value;
         mkItem "text/plain" "txt" None Value;
         mkItem "application/x-www-form-urlencoded"
                "application/x-www-form-urlencoded" None Value ].
Proof.
  destruct (C8_unfiltered_streams (ext := sampleExternals) "# @ref f")
    as (_ & _ & Href & _ & _).
  destruct (C8_unfiltered_streams (ext := sampleExternals) "authorization: b")
    as (_ & Hauth & _ & _ & _).
  destruct (C8_unfiltered_streams (ext := sampleExternals) "content-type: text")
    as (Hmime & _ & _ & _ & _).
  split; [exact (Href eq_refl eq_refl sampleFile)|].
  split; [exact (Hauth eq_refl) | exact (Hmime eq_refl)].
Defined.

(** C8 as stated fails on the code.  On line 2 of the sample file, in
    header context, the typed line [Authorization: ] is not empty; the
    provider returns the six authorization schemes, and Basic does not start
    with what was typed. *)
Lemma C8_counterexample :
  ~ (JS.trim "Authorization: " <> EmptyString ->
     forall item,
       In item (provideCompletionItems (ext := sampleExternals) "Authorization: "
                  (mkPosition 2 15) (Some sampleFile)) ->
       JS.startsWith (JS.toLowerCase (label item))
                     (JS.toLowerCase (JS.trim "Authorization: ")) = true).
Proof.
  intros Hclaim.
  assert (Hne : JS.trim "Authorization: " <> EmptyString) by (vm_compute; discriminate).
  specialize (Hclaim Hne
    (mkCompletionItem "Basic" Value "Basic Authentication" "Basic Authentication" "Basic")).
  assert (Hin : In (mkCompletionItem "Basic" Value "Basic Authentication"
                      "Basic Authentication" "Basic")
                   (provideCompletionItems (ext := sampleExternals) "Authorization: "
                      (mkPosition 2 15) (Some sampleFile))).
  { vm_compute. left. reflexivity. }
  specialize (Hclaim Hin). vm_compute in Hclaim. discriminate Hclaim.
Qed.

(** C9 on line 2 of the sample file with [Content-Type: ] typed. *)
Lemma C9_mime_type_candidates_witness :
  map label (provideCompletionItems (ext := sampleExternals) "Content-Type: "
               (mkPosition 2 14) (Some sampleFile))
  = [ "application/json"; "text/plain"; "application/x-www-form-urlencoded" ]
  /\ In (toCompletionItem (mkItem "application/x-www-form-urlencoded"
                                  "application/x-www-form-urlencoded" None Value))
        (provideCompletionItems (ext := sampleExternals) "Content-Type: "
           (mkPosition 2 14) (Some sampleFile)).
Proof.
  split; [reflexivity|].
  apply (C9_mime_type_candidates (ext := sampleExternals) "Content-Type: "
           (mkPosition 2 14) (Some sampleFile) eq_refl eq_refl).
Defined.

(** C10 on the comment line [# @na] typed on line 0 of the sample file: the
    only candidate is the meta directive [@name]. *)
Lemma C10_comment_line_streams_witness :
  getRequstMethodCompletionItems (JS.trim "# @na") = []
  /\ map name (collectCandidates (ext := sampleExternals) "# @na" (mkPosition 0 5)
                 (Some sampleFile))
     = [ "@name" ].
Proof.
  destruct (C10_comment_line_streams (ext := sampleExternals) "# @na"
              (mkPosition 0 5) (Some sampleFile) eq_refl) as (Hm & _ & _ & Hout).
  split; [exact Hm|]. rewrite (Hout eq_refl). reflexivity.
Defined.

(** C10 as stated fails on the code.  On line 2 of the sample file, in
    header context, the comment line [# authorization] yields the six
    authorization schemes, none of which comes from the meta-directive or
    the reference stream. *)
Lemma C10_counterexample :
  ~ (JS.startsWith (JS.trim "# authorization") "#" = true ->
     getRequstMethodCompletionItems (JS.trim "# authorization") = []
     /\ collectCandidates (ext := sampleExternals) "# authorization"
          (mkPosition 2 15) (Some sampleFile)
        = (getMetaData (ext := sampleExternals) (JS.trim "# authorization")
             (headerContext (Some sampleFile) (mkPosition 2 15))
           ++ getRefName (JS.trim "# authorization") (Some sampleFile))%list).
Proof.
  intros Hclaim. destruct (Hclaim eq_refl) as [_ Hout].
  vm_compute in Hout. discriminate Hout.
Qed.

(** ** Properties of the error handler *)

Module ErrorHandlerFacts.

Import ErrorHandler.

Section Facts.

Variables V Args A : Type.
Variable stringifyThrows : V -> option (Thrown V).

Lemma logged_app (e1 e2 : list (Effect V)) :
  logged (e1 ++ e2) = (logged e1 ++ logged e2)%list.
Proof. unfold logged. apply flat_map_app. Qed.

Lemma popups_app (e1 e2 : list (Effect V)) :
  popups (e1 ++ e2) = (popups e1 + popups e2)%nat.
Proof. unfold popups. now rewrite filter_app, length_app. Qed.

Lemma handleError_logged (flag : bool) (err : Thrown V) :
  logged (fst (handleError stringifyThrows flag err)) = [ err ].
Proof.
  destruct flag, err as [stack n m | s | v]; try reflexivity.
  cbn [handleError]. destruct (stringifyThrows v); reflexivity.
Qed.

Lemma handleError_popups (flag : bool) (err : Thrown V) :
  popups (fst (handleError stringifyThrows flag err))
  = match snd (handleError stringifyThrows flag err) with
    | Some _ => 0%nat
    | None => if flag then 1%nat else 0%nat
    end.
Proof.
  destruct flag, err as [stack n m | s | v]; try reflexivity.
  cbn [handleError]. destruct (stringifyThrows v); reflexivity.
Qed.

(** The promise of [handleError] is rejected only when popups are on, the
    error is neither an [Error] nor a string, and [JSON.stringify] throws. *)
Lemma handleError_rejects (flag : bool) (err thrown : Thrown V) :
  snd (handleError stringifyThrows flag err) = Some thrown
  <-> flag = true /\ exists v, err = OtherValue v /\ stringifyThrows v = Some thrown.
Proof.
  destruct flag, err as [stack n m | s | v]; cbn [handleError snd].
  - split; [discriminate | intros (_ & v & Hv & _); discriminate].
  - split; [discriminate | intros (_ & v & Hv & _); discriminate].
  - destruct (stringifyThrows v) as [t|] eqn:Ht; cbn [snd].
    + split.
      * intros [= ->]. split; [reflexivity|]. now exists v.
      * intros (_ & v' & [= <-] & Hv). congruence.
    + split; [discriminate | intros (_ & v' & [= <-] & Hv); congruence].
  - split; [discriminate | intros (Hf & _); discriminate].
  - split; [discriminate | intros (Hf & _); discriminate].
  - split; [discriminate | intros (Hf & _); discriminate].
Qed.

(** X9.  A decorated method never throws.  It returns a rejected promise
    in one case only: the method's own promise was rejected with a value
    that is neither an [Error] nor a string, popups are on, and
    [JSON.stringify] throws on that value; the promise is then rejected
    with what [JSON.stringify] threw.  When the method itself succeeds, its
    effects and its result come through unchanged. *)
Theorem wrapper_never_throws (flag : bool)
        (method : Args -> list (Effect V) * Outcome V A) (args : Args) :
  let w := errorHandlerWrapper stringifyThrows flag method args in
  (forall thrown, snd w = Throws thrown -> False)
  /\ (forall thrown,
        snd w = ReturnsPromise (Rejected thrown)
        <-> flag = true
            /\ exists v, snd (method args) = ReturnsPromise (Rejected (OtherValue v))
                         /\ stringifyThrows v = Some thrown)
  /\ (failedWith (snd (method args)) = None ->
      fst w = fst (method args)
      /\ match snd (method args) with
         | Returns v => snd w = Returns (Some v)
         | ReturnsPromise (Fulfilled v) => snd w = ReturnsPromise (Fulfilled (Some v))
         | _ => False
         end).
Proof.
  intros w. subst w. unfold errorHandlerWrapper.
  destruct (method args) as [effects [v | [v | err] | err]]; cbn [fst snd failedWith].
  - split; [discriminate|]. split; [|intros _; now split].
    intros thrown. split; [discriminate | intros (_ & x & Hx & _); discriminate].
  - split; [discriminate|]. split; [|intros _; now split].
    intros thrown. split; [discriminate | intros (_ & x & Hx & _); discriminate].
  - pose proof (handleError_rejects flag err) as Hrej.
    destruct (handleError stringifyThrows flag err) as [handled settled].
    cbn [fst snd] in *. split; [discriminate|]. split; [|discriminate].
    intros thrown. split.
    + destruct settled as [t|]; [|discriminate]. intros [= ->].
      destruct (proj1 (Hrej thrown) eq_refl) as (Hflag & v & -> & Hv).
      split; [exact Hflag|]. now exists v.
    + intros (Hflag & v & [= ->] & Hv).
      assert (Hs : settled = Some thrown) by (apply Hrej; split; [|exists v]; auto).
      now rewrite Hs.
  - destruct (handleError stringifyThrows flag err) as [handled settled].
    cbn [fst snd]. split; [discriminate|]. split; [|discriminate].
    intros thrown. split; [discriminate | intros (_ & x & Hx & _); discriminate].
Qed.

(** X10.  When the method throws, or its promise is rejected, with [err],
    the wrapper logs exactly [err] after whatever the method logged.  With
    popups on it opens one popup, except when [err] is neither an [Error]
    nor a string and [JSON.stringify] throws on it; with popups off it
    opens none.  A throw is answered by [undefined]; a rejection by a
    promise of [undefined], or, in the exceptional case, by a promise
    rejected with what [JSON.stringify] threw. *)
Theorem wrapper_reports_failure (flag : bool)
        (method : Args -> list (Effect V) * Outcome V A) (args : Args)
        (err : Thrown V) :
  failedWith (snd (method args)) = Some err ->
  let w := errorHandlerWrapper stringifyThrows flag method args in
  let blocked := match err with
                 | OtherValue v => if flag then stringifyThrows v else None
                 | _ => None
                 end in
  logged (fst w) = (logged (fst (method args)) ++ [ err ])%list
  /\ popups (fst w)
     = (popups (fst (method args))
        + match blocked with
          | Some _ => 0
          | None => if flag then 1 else 0
          end)%nat
  /\ match snd (method args) with
     | Throws _ => snd w = Returns None
     | _ => snd w = ReturnsPromise (match blocked with
                                    | None => Fulfilled None
                                    | Some thrown => Rejected thrown
                                    end)
     end.
Proof.
  intros Hfail w blocked. subst w. unfold errorHandlerWrapper.
  assert (Hsettled : snd (handleError stringifyThrows flag err) = blocked).
  { subst blocked. destruct flag, err as [stack n m | s | v]; try reflexivity.
    cbn [handleError]. destruct (stringifyThrows v); reflexivity. }
  pose proof (handleError_logged flag err) as Hlog.
  pose proof (handleError_popups flag err) as Hpop.
  rewrite Hsettled in Hpop.
  destruct (method args) as [effects [v | [v | e] | e]]; cbn [snd fst failedWith] in *;
    try discriminate; injection Hfail as ->;
    destruct (handleError stringifyThrows flag err) as [handled settled];
    cbn [fst snd] in *; subst settled;
    rewrite logged_app, popups_app, Hlog, Hpop; repeat split; reflexivity.
Qed.

(** X11.  Decorating a decorated method: the outer wrapper adds no log
    entry and no popup, except when the promise of the inner wrapper is
    rejected (the case of X9); it then handles that rejection as any
    other.  In particular it adds nothing when [JSON.stringify] never
    throws. *)
Theorem wrapper_twice (inner outer : bool)
        (method : Args -> list (Effect V) * Outcome V A) (args : Args) :
  let once := errorHandlerWrapper stringifyThrows inner method args in
  let twice := errorHandlerWrapper stringifyThrows outer
                 (errorHandlerWrapper stringifyThrows inner method) args in
  fst twice
  = (fst once
     ++ match snd once with
        | ReturnsPromise (Rejected thrown) =>
            fst (handleError stringifyThrows outer thrown)
        | _ => []
        end)%list
  /\ ((forall v, stringifyThrows v = None) -> fst twice = fst once).
Proof.
  intros once twice.
  assert (Heq : fst twice
                = (fst once
                   ++ match snd once with
                      | ReturnsPromise (Rejected thrown) =>
                          fst (handleError stringifyThrows outer thrown)
                      | _ => []
                      end)%list).
  { subst once twice. unfold errorHandlerWrapper.
    destruct (method args) as [effects [v | [v | e] | e]]; cbn [fst snd];
      try (now rewrite app_nil_r);
      destruct (handleError stringifyThrows inner e) as [handled [t|]];
      cbn [fst snd]; try (now rewrite app_nil_r).
    now destruct (handleError stringifyThrows outer t). }
  split; [exact Heq|].
  intros Hnever. rewrite Heq.
  destruct (snd once) as [v | [v | thrown] | thrown] eqn:Hs;
    try apply app_nil_r.
  exfalso.
  pose proof (wrapper_never_throws inner method args) as (_ & Hrej & _).
  fold once in Hrej. destruct (proj1 (Hrej thrown) Hs) as (_ & v & _ & Hv).
  rewrite Hnever in Hv. discriminate.
Qed.

(** X12.  The popup for an [Error] object is never blank: it is the stack
    when there is a non-empty one, otherwise name, dash, message. *)
Theorem error_popup_text (stack : option string) (errName message : string) :
  handleError stringifyThrows true (ErrorObject stack errName message)
  = ([ LogError (ErrorObject stack errName message);
       ShowErrorMessage (Text (errorText stack errName message)) ],
     None)
  /\ errorText stack errName message <> EmptyString
  /\ (forall s, stack = Some s -> s <> EmptyString ->
        errorText stack errName message = s)
  /\ (stack = None \/ stack = Some EmptyString ->
        errorText stack errName message = (errName ++ " - " ++ message)%string).
Proof.
  split; [reflexivity|]. split; [|split].
  - assert (Hdash : (errName ++ " - " ++ message)%string <> EmptyString).
    { destruct errName; discriminate. }
    unfold errorText. destruct stack as [[|c s]|]; cbn [JS.isEmpty]; auto.
    discriminate.
  - intros s -> Hs. unfold errorText. destruct s; [now destruct Hs | reflexivity].
  - intros [-> | ->]; reflexivity.
Qed.

End Facts.

End ErrorHandlerFacts.

(** X10 for a method that throws the string boom while popups are on. *)
Lemma wrapper_reports_failure_witness :
  ErrorHandler.errorHandlerWrapper (V := unit) (A := nat) (fun _ => None) true
    (fun _ : unit => ([], ErrorHandler.Throws (ErrorHandler.StringValue "boom"))) tt
  = ([ ErrorHandler.LogError (ErrorHandler.StringValue "boom");
       ErrorHandler.ShowErrorMessage (ErrorHandler.Text "boom") ],
     ErrorHandler.Returns None)
  /\ ErrorHandler.popups
       (fst (ErrorHandler.errorHandlerWrapper (V := unit) (A := nat)
               (fun _ => None) true
               (fun _ : unit =>
                  ([], ErrorHandler.Throws (ErrorHandler.StringValue "boom"))) tt))
     = 1%nat.
Proof.
  split; [reflexivity|].
  apply (ErrorHandlerFacts.wrapper_reports_failure unit unit nat (fun _ => None) true
           (fun _ : unit => ([], ErrorHandler.Throws (ErrorHandler.StringValue "boom")))
           tt (ErrorHandler.StringValue "boom") eq_refl).
Defined.

(** ** Properties of the store controller *)

Module StoreControllerFacts.

Import StoreController.

Section Facts.

Variable APP_NAME : string.
Variables Uri PathLike Cookie UserSession : Type.
Variable showQuickPick : list QuickPickItem -> bool -> PickResult.

(** The lenses, one optional lens after the other. *)
Lemma provideCodeLenses_flat (config : Config) (isNotebook : bool) (uri : Uri)
      (httpFile : option (EnvFile PathLike)) (userSessions : list UserSession)
      (getCookies : EnvFile PathLike -> list Cookie) :
  provideCodeLenses APP_NAME config isNotebook uri httpFile userSessions getCookies
  = if negb (useCodeLensInNotebook config) && isNotebook then []
    else
      ((match httpFile with
        | Some file =>
            if codelensFlag pickEnvironment config
            then [ envLens APP_NAME uri file ] else []
        | None => []
        end)
       ++ (match httpFile with
           | Some _ =>
               if codelensFlag resetEnvironment config
               then [ resetLens APP_NAME ] else []
           | None => []
           end)
       ++ (if (0 <? List.length userSessions)%nat
              && codelensFlag logoutUserSession config
           then [ sessionLens APP_NAME (List.length userSessions) ] else [])
       ++ (match httpFile with
           | Some file =>
               if codelensFlag removeCookies config
                  && (0 <? List.length (getCookies file))%nat
               then [ cookiesLens APP_NAME uri (List.length (getCookies file)) ]
               else []
           | None => []
           end))%list.
Proof.
  unfold provideCodeLenses, JS.push.
  destruct (negb (useCodeLensInNotebook config) && isNotebook); [reflexivity|].
  destruct httpFile as [file|];
    destruct (codelensFlag pickEnvironment config);
    destruct (codelensFlag resetEnvironment config);
    destruct ((0 <? List.length userSessions)%nat
              && codelensFlag logoutUserSession config);
    destruct (codelensFlag removeCookies config); cbn [app andb];
    try reflexivity;
    destruct (0 <? List.length (getCookies file))%nat; reflexivity.
Qed.

(** The four command identifiers differ, whatever the application name. *)
Lemma commands_distinct :
  let c := commands APP_NAME in
  toggleEnvCommand c <> resetCommand c /\ toggleEnvCommand c <> logoutCommand c
  /\ toggleEnvCommand c <> removeCookiesCommand c
  /\ resetCommand c <> logoutCommand c /\ resetCommand c <> removeCookiesCommand c
  /\ logoutCommand c <> removeCookiesCommand c.
Proof.
  cbn. repeat split; intros Heq; apply JSFacts.append_cancel in Heq; discriminate.
Qed.

Lemma hasCommand_app (l1 l2 : list (CodeLens Uri PathLike)) (c : string) :
  hasCommand (l1 ++ l2) c <-> hasCommand l1 c \/ hasCommand l2 c.
Proof.
  unfold hasCommand. split.
  - intros (lens & Hin & Hc). apply in_app_iff in Hin.
    destruct Hin; [left | right]; now exists lens.
  - intros [(lens & Hin & Hc) | (lens & Hin & Hc)]; exists lens;
      (split; [apply in_app_iff; auto | exact Hc]).
Qed.

Lemma hasCommand_nil (c : string) :
  hasCommand (Uri := Uri) (PathLike := PathLike) [] c <-> False.
Proof. unfold hasCommand. split; [intros (lens & [] & _) | intros []]. Qed.

Lemma hasCommand_if (b : bool) (lens : CodeLens Uri PathLike) (c : string) :
  hasCommand (if b then [ lens ] else []) c <-> b = true /\ command lens = c.
Proof.
  unfold hasCommand. destruct b.
  - split.
    + intros (x & [<- | []] & Hc). now split.
    + intros [_ Hc]. exists lens. split; [now left | exact Hc].
  - split; [intros (x & [] & _) | intros [Hf _]; discriminate].
Qed.

Lemma length_positive {X : Type} (l : list X) :
  (0 <? List.length l)%nat = true <-> l <> [].
Proof. destruct l; cbn; split; congruence. Qed.

(** X13.  Which lenses are shown.  Outside a suppressed notebook, the
    environment lens and the reset lens need their option and a document
    model; the session lens needs its option and a user session, but no
    document model; the cookies lens needs its option, a document model and
    a cookie for it.  In a notebook with [useCodeLensInNotebook] off none
    is shown. *)
Theorem codeLens_presence (config : Config) (isNotebook : bool) (uri : Uri)
        (httpFile : option (EnvFile PathLike)) (userSessions : list UserSession)
        (getCookies : EnvFile PathLike -> list Cookie) :
  let result :=
    provideCodeLenses APP_NAME config isNotebook uri httpFile userSessions getCookies in
  let shown := negb (negb (useCodeLensInNotebook config) && isNotebook) in
  (hasCommand result (toggleEnvCommand (commands APP_NAME))
   <-> shown = true /\ codelensFlag pickEnvironment config = true
       /\ httpFile <> None)
  /\ (hasCommand result (resetCommand (commands APP_NAME))
      <-> shown = true /\ codelensFlag resetEnvironment config = true
          /\ httpFile <> None)
  /\ (hasCommand result (logoutCommand (commands APP_NAME))
      <-> shown = true /\ codelensFlag logoutUserSession config = true
          /\ userSessions <> [])
  /\ (hasCommand result (removeCookiesCommand (commands APP_NAME))
      <-> shown = true /\ codelensFlag removeCookies config = true
          /\ exists file, httpFile = Some file /\ getCookies file <> []).
Proof.
  intros result shown. subst result shown.
  rewrite provideCodeLenses_flat.
  destruct commands_distinct as (D1 & D2 & D3 & D4 & D5 & D6).
  cbv zeta in D1, D2, D3, D4, D5, D6.
  destruct (negb (useCodeLensInNotebook config) && isNotebook); cbn [negb].
  { rewrite !hasCommand_nil. repeat split; try tauto; intros (? & _); discriminate. }
  destruct httpFile as [file|].
  - rewrite !hasCommand_app, !hasCommand_if, !andb_true_iff, !length_positive.
    cbn [command envLens resetLens sessionLens cookiesLens].
    repeat split; try (intros [?|[?|[?|?]]]); intuition (try congruence).
    + exists file. split; [reflexivity | assumption].
    + right. right. right.
      match goal with
      | H : ex _ |- _ =>
          destruct H as (f & Hf & Hne); injection Hf as <-
      end.
      repeat split; auto.
  - rewrite !hasCommand_app, !hasCommand_nil, !hasCommand_if, !andb_true_iff,
      !length_positive.
    cbn [command sessionLens].
    repeat split; try (intros [?|[?|[?|?]]]); intuition (try congruence).
    match goal with
    | H : ex _ |- _ => destruct H as (f & Hf & _)
    end.
    discriminate.
Qed.

(** X14.  The lenses of one document: at most four, all on the first
    position of the document, and no two for the same command. *)
Theorem codeLenses_shape (config : Config) (isNotebook : bool) (uri : Uri)
        (httpFile : option (EnvFile PathLike)) (userSessions : list UserSession)
        (getCookies : EnvFile PathLike -> list Cookie) :
  let result :=
    provideCodeLenses APP_NAME config isNotebook uri httpFile userSessions getCookies in
  (List.length result <= 4)%nat
  /\ (forall lens, In lens result -> range lens = (0, 0, 0, 0))
  /\ NoDup (map command result).
Proof.
  intros result. subst result. rewrite provideCodeLenses_flat.
  destruct commands_distinct as (D1 & D2 & D3 & D4 & D5 & D6).
  cbv zeta in D1, D2, D3, D4, D5, D6.
  destruct (negb (useCodeLensInNotebook config) && isNotebook).
  { repeat split; [cbn; lia | intros lens [] | constructor]. }
  assert (Hfinish :
            forall (b1 b2 b3 b4 : bool) (l1 l4 : CodeLens Uri PathLike),
              range l1 = (0, 0, 0, 0) -> range l4 = (0, 0, 0, 0) ->
              command l1 = toggleEnvCommand (commands APP_NAME) ->
              command l4 = removeCookiesCommand (commands APP_NAME) ->
              let lenses :=
                ((if b1 then [ l1 ] else [])
                 ++ (if b2 then [ resetLens APP_NAME ] else [])
                 ++ (if b3 then [ sessionLens APP_NAME (List.length userSessions) ]
                     else [])
                 ++ (if b4 then [ l4 ] else []))%list in
              (List.length lenses <= 4)%nat
              /\ (forall lens, In lens lenses -> range lens = (0, 0, 0, 0))
              /\ NoDup (map command lenses)).
  { intros b1 b2 b3 b4 l1 l4 R1 R4 C1 C4 lenses. subst lenses.
    destruct b1, b2, b3, b4;
      cbn [app List.length map command resetLens sessionLens];
      rewrite ?C1, ?C4;
      (split; [lia|]);
      (split;
       [ intros lens Hin; cbn [In] in Hin;
         repeat (destruct Hin as [<- | Hin]; [auto; reflexivity|]); destruct Hin
       | repeat (constructor; [cbn [In]; intuition congruence|]); constructor ]). }
  destruct httpFile as [file|].
  - apply Hfinish; reflexivity.
  - destruct ((0 <? List.length userSessions)%nat
              && codelensFlag logoutUserSession config);
      cbn [app List.length map];
      (split; [lia|]);
      (split;
       [ intros lens Hin; cbn [In] in Hin;
         repeat (destruct Hin as [<- | Hin]; [reflexivity|]); destruct Hin
       | repeat (constructor; [cbn [In]; tauto|]); constructor ]).
Qed.

(** X15.  An active environment that is listed among the error
    environments colours the status bar: the item is shown with the joined
    environment names as text, and its background is the error colour -
    or no colour if the error colour is the default - whatever the warning
    environments are.  The background always differs from the default. *)
Theorem status_bar_error_environment
        (config : Config) (file : EnvFile PathLike) (item : StatusBarItem Uri PathLike)
        (active errors : list string) (e : string) :
  environmentShowStatusBarItem config = true ->
  activeEnvironment file = Some active ->
  environmentStatusBarItemErrorEnvs config = Some errors ->
  In e active -> In e errors ->
  let shown := refreshEnvStatusBarItem APP_NAME config file item in
  let default := environmentStatusBarItemDefaultBackground config in
  text shown = String.concat ", " active
  /\ visible shown = true
  /\ backgroundColor shown
     = (if isError default then None else Some errorBackground)
  /\ backgroundColor shown <> getDefaultBackgroundColor default.
Proof.
  intros Hshow Hactive Herrors Hin_active Hin_errors shown default.
  subst shown default. unfold refreshEnvStatusBarItem. rewrite Hshow, Hactive.
  assert (Htitle : getEnvironmentTitle (Some active) = String.concat ", " active).
  { destruct active; [destruct Hin_active | reflexivity]. }
  rewrite Htitle.
  assert (Hmatch : someOccursIn (environmentStatusBarItemErrorEnvs config)
                     (String.concat ", " active) = true).
  { rewrite Herrors. cbn [someOccursIn]. apply existsb_exists.
    exists e. split; [exact Hin_errors | now apply JSFacts.includes_concat]. }
  rewrite Hmatch. cbn [text visible backgroundColor].
  destruct (environmentStatusBarItemDefaultBackground config) as [[]|];
    cbn; repeat split; discriminate.
Qed.

(** X16.  When no error environment occurs in the status text, an active
    environment that is listed among the warning environments gives the
    warning colour - or no colour if the warning colour is the default. *)
Theorem status_bar_warning_environment
        (config : Config) (file : EnvFile PathLike) (item : StatusBarItem Uri PathLike)
        (active warnings : list string) (e : string) :
  environmentShowStatusBarItem config = true ->
  activeEnvironment file = Some active ->
  someOccursIn (environmentStatusBarItemErrorEnvs config)
               (String.concat ", " active) = false ->
  environmentStatusBarItemWarningEnvs config = Some warnings ->
  In e active -> In e warnings ->
  let shown := refreshEnvStatusBarItem APP_NAME config file item in
  let default := environmentStatusBarItemDefaultBackground config in
  backgroundColor shown
  = (if isWarning default then None else Some warningBackground)
  /\ backgroundColor shown <> getDefaultBackgroundColor default.
Proof.
  intros Hshow Hactive Hnoerr Hwarn Hin_active Hin_warn shown default.
  subst shown default. unfold refreshEnvStatusBarItem. rewrite Hshow, Hactive.
  assert (Htitle : getEnvironmentTitle (Some active) = String.concat ", " active).
  { destruct active; [destruct Hin_active | reflexivity]. }
  rewrite Htitle, Hnoerr.
  assert (Hmatch : someOccursIn (environmentStatusBarItemWarningEnvs config)
                     (String.concat ", " active) = true).
  { rewrite Hwarn. cbn [someOccursIn]. apply existsb_exists.
    exists e. split; [exact Hin_warn | now apply JSFacts.includes_concat]. }
  rewrite Hmatch. cbn [backgroundColor].
  destruct (environmentStatusBarItemDefaultBackground config) as [[]|];
    cbn; repeat split; discriminate.
Qed.

(** X17.  An empty string among the error environments matches every
    status text: the error highlight is applied for every file, also when
    no environment is active. *)
Theorem status_bar_blank_error_entry
        (config : Config) (file : EnvFile PathLike) (item : StatusBarItem Uri PathLike)
        (errors : list string) :
  environmentShowStatusBarItem config = true ->
  environmentStatusBarItemErrorEnvs config = Some errors ->
  In EmptyString errors ->
  backgroundColor (refreshEnvStatusBarItem APP_NAME config file item)
  = (if isError (environmentStatusBarItemDefaultBackground config)
     then None else Some errorBackground).
Proof.
  intros Hshow Herrors Hblank. unfold refreshEnvStatusBarItem. rewrite Hshow.
  assert (Hmatch : someOccursIn (environmentStatusBarItemErrorEnvs config)
                     (getEnvironmentTitle (activeEnvironment file)) = true).
  { rewrite Herrors. cbn [someOccursIn]. apply existsb_exists.
    exists EmptyString. split; [exact Hblank | apply JSFacts.includes_empty]. }
  rewrite Hmatch. cbn [backgroundColor].
  destruct (environmentStatusBarItemDefaultBackground config) as [[]|]; reflexivity.
Qed.



End Facts.

End StoreControllerFacts.

(** ** Properties of the environment controller *)

Module EnvironmentControllerFacts.

Import EnvironmentController.

Section Facts.

Variables Json Files : Type.
Variable isAbsolute : string -> bool.
Variable join : string -> string -> string.

Lemma allocate_data (next : nat) (datas : list (ProviderData Json Files)) :
  map data (allocate next datas) = datas.
Proof.
  revert next; induction datas as [|d rest IH]; intros next; [reflexivity|].
  cbn [allocate map data]. now rewrite IH.
Qed.

Lemma allocate_length (next : nat) (datas : list (ProviderData Json Files)) :
  List.length (allocate next datas) = List.length datas.
Proof. rewrite <- (allocate_data next datas) at 2. now rewrite length_map. Qed.

Lemma allocate_ref (next : nat) (datas : list (ProviderData Json Files))
      (p : EnvironmentProvider Json Files) :
  In p (allocate next datas) ->
  (next <= ref p < next + List.length datas)%nat.
Proof.
  revert next; induction datas as [|d rest IH]; intros next; [intros []|].
  cbn [allocate In List.length]. intros [<- | Hin].
  - cbn [ref]. lia.
  - specialize (IH (S next) Hin). lia.
Qed.

Lemma filter_notOwn_self (own : list (EnvironmentProvider Json Files)) :
  filter (notOwn own) own = [].
Proof.
  assert (Hall : forall l, incl l own -> filter (notOwn own) l = []).
  { induction l as [|p l IH]; intros Hincl; [reflexivity|].
    cbn [filter]. unfold notOwn at 1.
    assert (Hfound : existsb (fun q => (ref q =? ref p)%nat) own = true).
    { apply existsb_exists. exists p. split; [apply Hincl; now left|].
      apply Nat.eqb_refl. }
    rewrite Hfound. cbn [negb]. apply IH. intros x Hx. apply Hincl. now right. }
  apply Hall, incl_refl.
Qed.

Lemma filter_notOwn_older (own l : list (EnvironmentProvider Json Files)) (bound : nat) :
  (forall p, In p l -> (ref p < bound)%nat) ->
  (forall q, In q own -> (bound <= ref q)%nat) ->
  filter (notOwn own) l = l.
Proof.
  intros Hold Hnew. induction l as [|p l IH]; [reflexivity|].
  cbn [filter]. unfold notOwn at 1.
  assert (Hfresh : existsb (fun q => (ref q =? ref p)%nat) own = false).
  { destruct (existsb _ own) eqn:He; [|reflexivity].
    apply existsb_exists in He. destruct He as (q & Hq & Heq).
    apply Nat.eqb_eq in Heq. specialize (Hold p (or_introl eq_refl)).
    specialize (Hnew q Hq). lia. }
  rewrite Hfresh. cbn [negb]. f_equal. apply IH.
  intros x Hx. apply Hold. now right.
Qed.

Lemma kept_older (st : State Json Files) :
  wellFormed st -> forall p, In p (kept st) -> (ref p < nextRef st)%nat.
Proof.
  intros Hwf p. unfold kept. destruct (ownProviders st) as [own|].
  - intros Hin. apply filter_In in Hin. now apply Hwf.
  - apply Hwf.
Qed.

Lemma init_store (configs : Configs Json Files) (folders : option (list string)) (st : State Json Files) :
  storeProviders (initEnvironmentProvider isAbsolute join configs folders st)
  = (kept st ++ allocate (nextRef st) (ownData isAbsolute join configs folders))%list.
Proof.
  unfold initEnvironmentProvider, kept, JS.push. cbn [storeProviders].
  destruct (ownProviders st); reflexivity.
Qed.

Lemma init_own (configs : Configs Json Files) (folders : option (list string))
      (st : State Json Files) :
  ownProviders (initEnvironmentProvider isAbsolute join configs folders st)
  = Some (allocate (nextRef st) (ownData isAbsolute join configs folders)).
Proof. reflexivity. Qed.

Lemma init_next (configs : Configs Json Files) (folders : option (list string))
      (st : State Json Files) :
  nextRef (initEnvironmentProvider isAbsolute join configs folders st)
  = (nextRef st + List.length (ownData isAbsolute join configs folders))%nat.
Proof. unfold initEnvironmentProvider. cbn [nextRef]. now rewrite allocate_length. Qed.

(** X20.  Initialising again replaces the controller's own providers and
    nothing else: from a store in which every provider is older than the
    next reference, initialising with one configuration and then with a
    second leaves the providers that initialising with the second alone
    leaves - those registered by others, in their order, followed by the
    providers of the second configuration.  The store stays well formed. *)
Theorem reinit_replaces_own_providers
        (c1 c2 : Configs Json Files) (f1 f2 : option (list string)) (st : State Json Files) :
  wellFormed st ->
  let once := initEnvironmentProvider isAbsolute join c2 f2 st in
  let twice := initEnvironmentProvider isAbsolute join c2 f2
                 (initEnvironmentProvider isAbsolute join c1 f1 st) in
  map data (storeProviders twice) = map data (storeProviders once)
  /\ map data (storeProviders twice)
     = (map data (kept st) ++ ownData isAbsolute join c2 f2)%list
  /\ wellFormed twice.
Proof.
  intros Hwf once twice.
  set (st1 := initEnvironmentProvider isAbsolute join c1 f1 st).
  assert (Hkept1 : kept st1 = kept st).
  { unfold kept at 1. subst st1.
    rewrite init_own, init_store, filter_app, filter_notOwn_self, app_nil_r.
    apply (filter_notOwn_older _ _ (nextRef st)).
    - now apply kept_older.
    - intros q Hq. apply allocate_ref in Hq. lia. }
  assert (Honce : map data (storeProviders once)
                  = (map data (kept st) ++ ownData isAbsolute join c2 f2)%list).
  { subst once. now rewrite init_store, map_app, allocate_data. }
  assert (Htwice : map data (storeProviders twice)
                   = (map data (kept st) ++ ownData isAbsolute join c2 f2)%list).
  { subst twice. fold st1. now rewrite init_store, map_app, allocate_data, Hkept1. }
  split; [now rewrite Htwice, Honce|]. split; [exact Htwice|].
  intros p. subst twice. fold st1. rewrite init_store, Hkept1, init_next.
  subst st1. rewrite init_next. intros Hin. apply in_app_iff in Hin.
  destruct Hin as [Hold | Hnew].
  - pose proof (kept_older st Hwf p Hold). lia.
  - apply allocate_ref in Hnew. lia.
Qed.

Lemma flat_map_length_const {X Y : Type} (f : X -> list Y) (k : nat) (l : list X) :
  (forall x, List.length (f x) = k) ->
  List.length (flat_map f l) = (List.length l * k)%nat.
Proof.
  intros Hk. induction l as [|x l IH]; [reflexivity|].
  cbn [flat_map List.length]. rewrite length_app, Hk, IH. lia.
Qed.

(** X21.  How many providers an initialisation registers: one for the
    JSON setting if it is set, one for an absolute dotenv directory, and
    for every workspace folder one, or two when the dotenv directory is
    set and relative. *)
Theorem own_provider_count (configs : Configs Json Files) (folders : list string) (st : State Json Files) :
  let st' := initEnvironmentProvider isAbsolute join configs (Some folders) st in
  let dirname := match dotenvDirname configs with
                 | Some d => if JS.isEmpty d then None else Some d
                 | None => None
                 end in
  exists own,
    ownProviders st' = Some own
    /\ List.length own
       = ((match environmentenvironments configs with Some _ => 1 | None => 0 end)
          + (match dirname with
             | Some d => if isAbsolute d then 1 else 0
             | None => 0
             end)
          + List.length folders
            * (match dirname with
               | Some d => if isAbsolute d then 1 else 2
               | None => 1
               end))%nat.
Proof.
  intros st' dirname. subst st'. unfold initEnvironmentProvider.
  cbn [ownProviders]. eexists. split; [reflexivity|].
  rewrite allocate_length. unfold ownData. rewrite !length_app. subst dirname.
  destruct (environmentenvironments configs);
    destruct (dotenvDirname configs) as [[|c d]|]; cbn [JS.isEmpty negb andb];
    try destruct (isAbsolute (String c d)); cbn [negb List.length];
    first [ rewrite (flat_map_length_const _ 1%nat) by reflexivity
          | rewrite (flat_map_length_const _ 2%nat) by reflexivity ];
    lia.
Qed.

End Facts.

Section Picking.

Variable showQuickPick : list string -> option string.
Variable APP_NAME : string.

Lemma getFile_map (files : list HttpFileEntry) (picked : option string)
      (fileName : string) :
  getFile (map (fun httpFile => mkEntry (entryName httpFile) picked) files) fileName
  = match getFile files fileName with
    | Some f => Some (mkEntry (entryName f) picked)
    | None => None
    end.
Proof.
  unfold getFile. induction files as [|f rest IH]; [reflexivity|].
  cbn [map find entryName]. destruct (String.eqb (entryName f) fileName); [reflexivity|].
  exact IH.
Qed.


End Picking.

End EnvironmentControllerFacts.

(** ** The further properties at concrete inputs *)

(** X1 on the line [Ge]. *)
Lemma methods_upper_case_line_witness :
  getRequstMethodCompletionItems "Ge" = []
  /\ map name (getRequstMethodCompletionItems "ge") = [ "GET" ].
Proof.
  split; [|reflexivity].
  apply (methods_upper_case_line "Ge"). discriminate.
Defined.

(** X3 on [CONTENT-T] and [content-t] after the request line of the HTTP
    region. *)
Lemma headers_ignore_case_witness :
  getRequestHeaders "CONTENT-T" true (Some regionHttp)
  = getRequestHeaders "content-t" true (Some regionHttp)
  /\ map name (getRequestHeaders "content-t" true (Some regionHttp))
     = [ "Content-Type" ].
Proof.
  split; [|reflexivity].
  apply (headers_ignore_case "CONTENT-T" "content-t" true (Some regionHttp) eq_refl).
Defined.

(** X6 on the comment line [# name]. *)
Lemma meta_needs_at_sign_witness :
  getMetaData (ext := sampleExternals) "# name" false = []
  /\ map name (getMetaData (ext := sampleExternals) "# @name" false) = [ "@name" ].
Proof.
  split; [|reflexivity].
  apply (meta_needs_at_sign (ext := sampleExternals) "# name" false);
    [discriminate | reflexivity].
Defined.

(** X7 for the directive [name]: typed in part, and typed whole. *)
Lemma meta_plain_directive_insert_text_witness :
  (exists item,
     metaDataItems "@na" (mkKnown "name" "name of the region" None) = [ item ]
     /\ insertText (toCompletionItem item) = "me")
  /\ (exists item,
        metaDataItems "@name" (mkKnown "name" "name of the region" None) = [ item ]
        /\ insertText (toCompletionItem item) = "@name").
Proof.
  split.
  - destruct (meta_plain_directive_insert_text "@na"
                (mkKnown "name" "name of the region" None) eq_refl eq_refl)
      as (item & Hitems & _ & _ & Hrest).
    exists item. split; [exact Hitems|].
    assert (Hne : "@na" <> ("@" ++ metaName (mkKnown "name" "name of the region" None))%string)
      by discriminate.
    specialize (Hrest Hne). cbn in Hrest. now injection Hrest.
  - destruct (meta_plain_directive_insert_text "@name"
                (mkKnown "name" "name of the region" None) eq_refl eq_refl)
      as (item & Hitems & _ & Hwhole & _).
    exists item. split; [exact Hitems | exact (Hwhole eq_refl)].
Defined.

(** X8 for the authorization schemes offered on line 2 of the sample file. *)
Lemma items_never_blank_witness :
  label (mkCompletionItem "Basic" Value "Basic Authentication"
           "Basic Authentication" "Basic") <> EmptyString
  /\ insertText (mkCompletionItem "Basic" Value "Basic Authentication"
                   "Basic Authentication" "Basic") <> EmptyString.
Proof.
  apply (items_never_blank (ext := sampleExternals) "Authorization: "
           (mkPosition 2 15) (Some sampleFile)).
  - intros entry [<- | [<- | []]]; discriminate.
  - vm_compute. left. reflexivity.
Defined.

(** X15 for a file with the environments prod and eu. *)
Lemma status_bar_error_environment_witness :
  StoreController.text
    (StoreController.refreshEnvStatusBarItem "httpyac" StoreControllerSamples.config
       (StoreController.mkEnvFile "a.http" (Some [ "prod"; "eu" ]))
       StoreControllerSamples.hidden) = "prod, eu"
  /\ StoreController.backgroundColor
       (StoreController.refreshEnvStatusBarItem "httpyac" StoreControllerSamples.config
          (StoreController.mkEnvFile "a.http" (Some [ "prod"; "eu" ]))
          StoreControllerSamples.hidden)
     = Some StoreController.errorBackground.
Proof.
  destruct (StoreControllerFacts.status_bar_error_environment "httpyac" unit string
              StoreControllerSamples.config
              (StoreController.mkEnvFile "a.http" (Some [ "prod"; "eu" ]))
              StoreControllerSamples.hidden
              [ "prod"; "eu" ] [ "prod" ] "prod" eq_refl eq_refl eq_refl
              (or_introl eq_refl) (or_introl eq_refl))
    as (Htext & _ & Hcolour & _).
  split; [exact Htext | exact Hcolour].
Defined.

(** X16 for a file with the environment test. *)
Lemma status_bar_warning_environment_witness :
  StoreController.backgroundColor
    (StoreController.refreshEnvStatusBarItem "httpyac" StoreControllerSamples.config
       (StoreController.mkEnvFile "a.http" (Some [ "test" ]))
       StoreControllerSamples.hidden)
  = Some StoreController.warningBackground.
Proof.
  apply (StoreControllerFacts.status_bar_warning_environment "httpyac" unit string
           StoreControllerSamples.config
           (StoreController.mkEnvFile "a.http" (Some [ "test" ]))
           StoreControllerSamples.hidden
           [ "test" ] [ "test" ] "test" eq_refl eq_refl eq_refl eq_refl
           (or_introl eq_refl) (or_introl eq_refl)).
Defined.

(** X17 for a file without an active environment, the error colour being
    the default: the highlight is no colour. *)
Lemma status_bar_blank_error_entry_witness :
  StoreController.backgroundColor
    (StoreController.refreshEnvStatusBarItem "httpyac" StoreControllerSamples.blankConfig
       (StoreController.mkEnvFile "a.http" None) StoreControllerSamples.hidden)
  = None.
Proof.
  apply (StoreControllerFacts.status_bar_blank_error_entry "httpyac" unit string
           StoreControllerSamples.blankConfig
           (StoreController.mkEnvFile "a.http" None) StoreControllerSamples.hidden
           [ "prod"; EmptyString ]
           eq_refl eq_refl (or_intror (or_introl eq_refl))).
Defined.

(** X20: after initialising with [first] and then with [second], for one
    workspace folder, the store holds the foreign provider and the two
    providers of [second]. *)
Lemma reinit_replaces_own_providers_witness :
  map EnvironmentController.data
      (EnvironmentController.storeProviders
         (EnvironmentController.initEnvironmentProvider
            EnvironmentControllerSamples.isAbsolute EnvironmentControllerSamples.join
            EnvironmentControllerSamples.second (Some [ "/ws" ])
            (EnvironmentController.initEnvironmentProvider
               EnvironmentControllerSamples.isAbsolute EnvironmentControllerSamples.join
               EnvironmentControllerSamples.first (Some [ "/ws" ])
               EnvironmentControllerSamples.foreign)))
  = [ EnvironmentController.JsonEnvProvider tt;
      EnvironmentController.DotenvProvider "/ws" tt;
      EnvironmentController.DotenvProvider "/ws/env" tt ].
Proof.
  assert (Hwf : EnvironmentController.wellFormed EnvironmentControllerSamples.foreign).
  { intros p [<- | []]. cbn. lia. }
  destruct (EnvironmentControllerFacts.reinit_replaces_own_providers unit unit
              EnvironmentControllerSamples.isAbsolute EnvironmentControllerSamples.join
              EnvironmentControllerSamples.first EnvironmentControllerSamples.second
              (Some [ "/ws" ]) (Some [ "/ws" ])
              EnvironmentControllerSamples.foreign Hwf) as (_ & Hdata & _).
  exact Hdata.
Defined.
